(** * Summarizer service: a shallow embedding of [app.py]

    The program is one Flask module: an upload form, two routes and the
    module-level objects they share.  The embedding follows the module top
    to bottom.  Python [str] values are lists of Unicode code points, the
    collaborators the module imports (PDF parser, hosted model, markdown
    converter, uuid generator) are the fields of one record, and every
    effect of a request handler is a step of a small state-and-exception
    monad over a [World]: the files on disk, the session store of the
    current client and the chronological trace of the calls made to the
    collaborators. *)

From Stdlib Require Import ZArith NArith QArith List String Ascii Lia.
From Stdlib.Strings Require Import Byte.
From stdpp Require Import gmap strings list fin_maps pretty.

Local Open Scope string_scope.
Local Open Scope list_scope.
Local Open Scope Z_scope.

(** ** Python strings *)

(** A Python [str]: a sequence of code points. *)
Abbreviation pystr := (list N).

(** An ASCII literal of the source as a [str]. *)
Definition lit (s : string) : pystr :=
  map (fun a : ascii => N_of_ascii a) (list_ascii_of_string s).

(** The escape [\n]. *)
Definition nl : pystr := [10%N].

(** [len(x)] as a Python integer. *)
Definition len {A : Type} (l : list A) : Z := Z.of_nat (length l).

(** [str.isspace] on one code point: the characters CPython's
    [_PyUnicode_IsWhitespace] accepts, which are the ones [str.split()]
    splits on. *)
Definition isspace (c : N) : bool :=
  ((0x09 <=? c) && (c <=? 0x0D) || (0x1C <=? c) && (c <=? 0x20)
   || (c =? 0x85) || (c =? 0xA0) || (c =? 0x1680)
   || (0x2000 <=? c) && (c <=? 0x200A)
   || (c =? 0x2028) || (c =? 0x2029) || (c =? 0x202F) || (c =? 0x205F)
   || (c =? 0x3000))%N.

(** [s.split()] with no separator: the maximal runs of non-whitespace
    characters, in order; [word] is the run being read, reversed. *)
Fixpoint split_ws (word s : pystr) : list pystr :=
  match s with
  | [] => match word with [] => [] | _ => [rev word] end
  | c :: rest =>
      if isspace c then
        match word with
        | [] => split_ws [] rest
        | _ => rev word :: split_ws [] rest
        end
      else split_ws (c :: word) rest
  end.

Definition split (s : pystr) : list pystr := split_ws [] s.

(** [sep.join(parts)]. *)
Fixpoint join (sep : pystr) (parts : list pystr) : pystr :=
  match parts with
  | [] => []
  | [p] => p
  | p :: ps => p ++ sep ++ join sep ps
  end.

(** [s.startswith(prefix)]. *)
Fixpoint startswith (s prefix : pystr) : bool :=
  match prefix, s with
  | [], _ => true
  | _ :: _, [] => false
  | p :: prefix', c :: s' => (c =? p)%N && startswith s' prefix'
  end.

(** [s.endswith(suffix)]. *)
Definition endswith (s suffix : pystr) : bool :=
  startswith (rev s) (rev suffix).

(** [s.replace(old, new)] for a non-empty [old]: occurrences are taken left
    to right and do not overlap; [skip] counts the characters of a matched
    occurrence still to be dropped. *)
Fixpoint replace_from (old new : pystr) (skip : nat) (s : pystr) : pystr :=
  match s with
  | [] => []
  | c :: rest =>
      match skip with
      | S k => replace_from old new k rest
      | O =>
          if startswith s old
          then new ++ replace_from old new (length old - 1) rest
          else c :: replace_from old new O rest
      end
  end.

(** [s.replace(old, new)]; an empty [old] matches before every character
    and at the end. *)
Definition replace (s old new : pystr) : pystr :=
  match old with
  | [] => new ++ concat (map (fun c => c :: new) s)
  | _ => replace_from old new O s
  end.

(** [old in s]: whether [old] occurs in [s]. *)
Fixpoint occurs (old s : pystr) : bool :=
  match s with
  | [] => startswith [] old
  | _ :: rest => startswith s old || occurs old rest
  end.

(** [c.lower()] on the letters A to Z.  Other code points are left as they
    are; no code point outside A-Z lowers to an ASCII letter, so the
    extension test of the form below reads the same suffix as Python's. *)
Definition lower_char (c : N) : N :=
  if ((0x41 <=? c) && (c <=? 0x5A))%N then (c + 0x20)%N else c.

Definition lower (s : pystr) : pystr := map lower_char s.

(** [str(n)] of an integer that is a length. *)
Definition str_of_len (n : Z) : pystr := lit (pretty n).


(** ** Requests and the upload form (lines 46-57) *)

Inductive Method := GET | HEAD | POST | PUT | PATCH | DELETE | OPTIONS.

#[global] Instance Method_eq_dec : EqDecision Method.
Proof. solve_decision. Defined.

(** An uploaded file as werkzeug hands it over: the client's file name and
    the bytes sent. *)
Record FileStorage := {
  filename : pystr;
  stream : list byte
}.

(** What a handler reads of a request.  [csrf_valid] says whether the token
    the request carries is the one of the client's session; [files] and
    [form] are the file parts and the text fields of the body as flask_wtf
    binds them, in the order sent (for a JSON body, which has neither,
    flask_wtf binds the members of the object as the text fields). *)
Record Request := {
  method : Method;
  path : string;
  csrf_valid : bool;
  files : list (string * FileStorage);
  form : list (string * pystr)
}.

(** [UploadForm]: the data and the errors of its two fields ([submit]
    has no validator and the handlers never read it). *)
Record UploadForm := {
  pdf_file_data : option FileStorage;
  pdf_file_errors : list pystr;
  text_input_data : pystr
}.

(** The validators of flask_wtf.file the form names. *)
Inductive Validator :=
| FileRequired
| FileAllowed (upload_set : list pystr) (message : pystr).

(** [pdf_file = FileField(validators=[FileRequired(), FileAllowed(["pdf"],
    "Please select a PDF.")])]. *)
Definition pdf_file_validators : list Validator :=
  [FileRequired; FileAllowed [lit "pdf"] (lit "Please select a PDF.")].

(** [text_input = TextAreaField(label="Instructions", default="Summarize
    the PDF.")]: a default and no validator. *)
Definition text_input_default : pystr := lit "Summarize the PDF.".

(** [FlaskForm.is_submitted]: the request's method is one that carries a
    body. *)
Definition is_submitted (request : Request) : bool :=
  match method request with
  | POST | PUT | PATCH | DELETE => true
  | GET | HEAD | OPTIONS => false
  end.

(** [getlist(name)] of a multi-dict. *)
Definition getlist {A : Type} (name : string) (md : list (string * A)) : list A :=
  map snd (List.filter (fun kv => String.eqb (fst kv) name) md).

(** A [FileStorage] is truthy when it has a file name. *)
Definition file_truthy (f : FileStorage) : bool :=
  match filename f with [] => false | _ => true end.

(** [FileField.process_formdata]: the first truthy file sent under the
    field's name, or [None]. *)
Definition FileField_process (name : string) (request : Request) : option FileStorage :=
  head (List.filter file_truthy (getlist name (files request))).

(** [TextAreaField.process] on a body whose parts under the field's name
    are text: the first value sent, or the default when the form is unbound
    or none was sent.  flask_wtf binds the file parts and the text fields
    of a body together, files first, so a file part under the field's name
    would become the field's data, an object and no text; this reader does
    not cover such a body, and what is stated of the instruction is stated
    for bodies without one. *)
Definition TextAreaField_process (name : string) (default : pystr)
    (request : Request) : pystr :=
  match getlist name (form request) with
  | v :: _ => v
  | [] => default
  end.

(** The fields [UploadForm()] binds: flask_wtf binds the form to the
    request's body when the request is a submission and leaves the defaults
    otherwise.  What the constructor does to the session is
    [generate_csrf] below. *)
Definition UploadForm_new (request : Request) : UploadForm :=
  if is_submitted request then
    {| pdf_file_data := FileField_process "pdf_file" request;
       pdf_file_errors := [];
       text_input_data := TextAreaField_process "text_input" text_input_default request |}
  else
    {| pdf_file_data := None;
       pdf_file_errors := [];
       text_input_data := text_input_default |}.

(** [FileAllowed]'s test: the lower-cased file name ends with a dot and one
    of the extensions. *)
Definition extension_allowed (upload_set : list pystr) (f : FileStorage) : bool :=
  existsb (fun x => endswith (lower (filename f)) (lit "." ++ x)) upload_set.

(** One validator on the file field: [Some message] when it raises
    [StopValidation]. *)
Definition run_validator (v : Validator) (data : option FileStorage) : option pystr :=
  match v with
  | FileRequired =>
      match data with
      | Some f => if file_truthy f then None else Some (lit "This field is required.")
      | None => Some (lit "This field is required.")
      end
  | FileAllowed upload_set message =>
      match data with
      | Some f =>
          if file_truthy f then
            if extension_allowed upload_set f then None else Some message
          else None
      | None => None
      end
  end.

(** The validation chain of a field: the first validator that raises stops
    the chain and leaves its message as the field's error. *)
Fixpoint run_chain (vs : list Validator) (data : option FileStorage) : list pystr :=
  match vs with
  | [] => []
  | v :: vs' =>
      match run_validator v data with
      | Some message => [message]
      | None => run_chain vs' data
      end
  end.

(** [form.validate()]: runs each field's chain and keeps the errors; the
    form is valid when no field has one.  [text_input] has no validator, so
    it never has an error.  The form's own token check repeats the one the
    application makes before every view (see [full_dispatch_request]) and
    passes whenever a view runs, so it adds no error here. *)
Definition validate (f : UploadForm) : bool * UploadForm :=
  let errors := run_chain pdf_file_validators (pdf_file_data f) in
  (match errors with [] => true | _ => false end,
   {| pdf_file_data := pdf_file_data f;
      pdf_file_errors := errors;
      text_input_data := text_input_data f |}).

(** [form.validate_on_submit()]: [is_submitted() and validate()]. *)
Definition validate_on_submit (request : Request) (f : UploadForm) : bool * UploadForm :=
  if is_submitted request then validate f else (false, f).

(** ** Module-level configuration (lines 60-69) *)

(** [GenerationConfig(...)]; the two decimal literals are kept as
    fractions. *)
Record GenerationConfig := {
  temperature : Q;
  top_p : Q;
  candidate_count : Z;
  max_output_tokens : Z
}.

Definition generation_config : GenerationConfig :=
  {| temperature := 3 # 10;
     top_p := 6 # 10;
     candidate_count := 1;
     max_output_tokens := 4096 |}.

(** ** The world a handler runs in *)

Inductive exn :=
| KeyError (key : string)
| AttributeError (attribute : string)
| FileNotFoundError (file : string)
| BuildError (endpoint : string)
| ExtractionError (detail : pystr)
| InferenceError (detail : pystr).

Inductive result (A : Type) :=
| Ok (a : A)
| Raise (e : exn).

Arguments Ok {A} a.
Arguments Raise {A} e.

(** A page as the loader returns it. *)
Record Document := { page_content : pystr }.

(** What [model.generate_content] returns; reading [.text] can raise. *)
Record GenerationResponse := { text : result pystr }.

(** The calls a handler makes outside the module, as they happen. *)
Inductive event :=
| EvSave (file : string) (content : list byte)
| EvLoadAndSplit (file : string)
| EvLog (message : pystr)
| EvGenerate (prompt : pystr) (config : GenerationConfig)
| EvMarkdown (source : pystr)
| EvRemove (file : string).

(** The files of the working directory, the session of the current client,
    the number of uuids and of CSRF tokens drawn so far, and the calls made
    so far, oldest first. *)
Record World := {
  fs : gmap string (list byte);
  session : gmap string pystr;
  uuids_drawn : nat;
  tokens_drawn : nat;
  trace : list event
}.

Definition with_fs (f : gmap string (list byte)) (w : World) : World :=
  {| fs := f; session := session w; uuids_drawn := uuids_drawn w;
     tokens_drawn := tokens_drawn w; trace := trace w |}.

Definition with_session (s : gmap string pystr) (w : World) : World :=
  {| fs := fs w; session := s; uuids_drawn := uuids_drawn w;
     tokens_drawn := tokens_drawn w; trace := trace w |}.

Definition record_event (e : event) (w : World) : World :=
  {| fs := fs w; session := session w; uuids_drawn := uuids_drawn w;
     tokens_drawn := tokens_drawn w; trace := trace w ++ [e] |}.

(** Statements of a handler: they read and change the world, and return a
    value or raise. *)
Definition M (A : Type) : Type := World -> result A * World.

Definition ret {A : Type} (a : A) : M A := fun w => (Ok a, w).

Definition raise {A : Type} (e : exn) : M A := fun w => (Raise e, w).

(** Sequencing: an exception skips the rest and keeps the world as the
    failing statement left it. *)
Definition bind {A B : Type} (m : M A) (k : A -> M B) : M B :=
  fun w =>
    match m w with
    | (Ok a, w') => k a w'
    | (Raise e, w') => (Raise e, w')
    end.

Notation "x <- m ;; k" := (bind m (fun x => k))
  (at level 100, m at next level, right associativity).
Notation "m ;;; k" := (bind m (fun _ => k))
  (at level 100, right associativity).

Definition lift {A : Type} (r : result A) : M A := fun w => (r, w).

(** [logging.debug(message)]; the module sets the level to DEBUG. *)
Definition logging_debug (message : pystr) : M unit :=
  fun w => (Ok tt, record_event (EvLog message) w).

(** [session[key] = value]. *)
Definition session_set (key : string) (value : pystr) : M unit :=
  fun w => (Ok tt, with_session (<[key := value]> (session w)) w).

(** [session[key]]: a [KeyError] when the key was never set. *)
Definition session_get (key : string) : M pystr :=
  fun w =>
    match session w !! key with
    | Some v => (Ok v, w)
    | None => (Raise (KeyError key), w)
    end.

(** [file.save(dst)]: writes the uploaded bytes to [dst]. *)
Definition FileStorage_save (f : FileStorage) (dst : string) : M unit :=
  fun w =>
    (Ok tt, record_event (EvSave dst (stream f)) (with_fs (<[dst := stream f]> (fs w)) w)).

(** [os.remove(file)]. *)
Definition os_remove (file : string) : M unit :=
  fun w =>
    match fs w !! file with
    | Some _ => (Ok tt, record_event (EvRemove file) (with_fs (delete file (fs w)) w))
    | None => (Raise (FileNotFoundError file), record_event (EvRemove file) w)
    end.

(** ** Responses and routes *)

Inductive TemplateContext :=
| ctx_upload_form (form : UploadForm)
| ctx_response_text (html : pystr).

Inductive Response :=
| Rendered (template : string) (context : TemplateContext)
| Redirect (code : Z) (location : string)
| Aborted (code : Z)
| DefaultOptions.

(** [render_template(template, **context)]. *)
Definition render_template (template : string) (context : TemplateContext) : M Response :=
  ret (Rendered template context).

(** [redirect(location, code=302)]: werkzeug's default status. *)
Definition redirect_default_code : Z := 302.

Definition redirect (location : string) : Response :=
  Redirect redirect_default_code location.

(** One [@app.route(rule, methods=...)] line. *)
Record Rule := {
  rule : string;
  methods : list Method;
  endpoint : string
}.

(** The two routes the module declares (lines 72 and 105).  The map of the
    running application also holds the static-file routes that Flask and
    Bootstrap5 register themselves; this table is the module's own. *)
Definition url_map : list Rule :=
  [ {| rule := "/"; methods := [GET; POST]; endpoint := "index" |};
    {| rule := "/pdf_results"; methods := [GET; POST]; endpoint := "pdf_results" |} ].

(** [url_for(endpoint)]: the rule of the endpoint. *)
Definition url_for (name : string) : M string :=
  match List.filter (fun r => String.eqb (endpoint r) name) url_map with
  | r :: _ => ret (rule r)
  | [] => raise (BuildError name)
  end.

(** ** The handlers (lines 72-113) *)

(** The mis-decoded bullet the handler repairs: U+00E2, U+20AC, U+00A2
    (line 93). *)
Definition bullet_glyph : pystr := [0xE2; 0x20AC; 0xA2]%N.

(** The fixed answer of the oversized branch (line 95). *)
Definition too_long_message : pystr :=
  lit "This text is too long for this application's current configuration."
  ++ nl ++ nl ++ lit "Please use a shorter text.".

(** [combined_text] (line 81): the page texts joined by a blank line. *)
Definition combined_text_of (pages : list Document) : pystr :=
  join (nl ++ nl) (map page_content pages).

(** [word_count] (line 82): [len(combined_text.split())]. *)
Definition word_count_of (combined_text : pystr) : Z :=
  len (split combined_text).

(** [prompt] (line 88). *)
Definition prompt_of (instruction combined_text : pystr) : pystr :=
  instruction ++ lit " Use information from the PDF to respond."
  ++ nl ++ nl ++ lit "PDF:" ++ nl ++ combined_text.

(** The same request sent with another method. *)
Definition with_method (m : Method) (request : Request) : Request :=
  {| method := m; path := path request; csrf_valid := csrf_valid request;
     files := files request; form := form request |}.

(** ** The collaborators *)

(** What the module imports and calls: [uuid4_str n] is the [n]-th value
    of [str(uuid.uuid4())] in this process, [parse_pdf] what the PDF loader
    makes of a file's bytes, [generate_content] the hosted model,
    [markdown_markdown] the markdown converter, and [csrf_token_hex n] the
    [n]-th value of [hashlib.sha1(os.urandom(64)).hexdigest()], which
    flask_wtf stores as a new CSRF token. *)
Record Collaborators := {
  uuid4_str : nat -> string;
  parse_pdf : list byte -> result (list Document);
  generate_content : pystr -> GenerationConfig -> result GenerationResponse;
  markdown_markdown : pystr -> pystr;
  csrf_token_hex : nat -> pystr
}.

Section App.

(** The collaborators the handlers run against. *)
Variable env : Collaborators.

(** [str(uuid.uuid4())]. *)
Definition uuid4 : M string :=
  fun w =>
    (Ok (uuid4_str env (uuids_drawn w)),
     {| fs := fs w; session := session w; uuids_drawn := S (uuids_drawn w);
        tokens_drawn := tokens_drawn w; trace := trace w |}).

(** [PyPDFLoader(file).load_and_split()]: reads the file and parses it. *)
Definition load_and_split (file : string) : M (list Document) :=
  fun w =>
    match fs w !! file with
    | Some content => (parse_pdf env content, record_event (EvLoadAndSplit file) w)
    | None => (Raise (FileNotFoundError file), record_event (EvLoadAndSplit file) w)
    end.

(** [model.generate_content(prompt, generation_config=config)]. *)
Definition model_generate_content (prompt : pystr) (config : GenerationConfig)
    : M GenerationResponse :=
  fun w => (generate_content env prompt config, record_event (EvGenerate prompt config) w).

(** [markdown.markdown(source)]. *)
Definition markdown (source : pystr) : M pystr :=
  fun w => (Ok (markdown_markdown env source), record_event (EvMarkdown source) w).

(** flask_wtf's [generate_csrf], which [UploadForm()] runs for its token
    field: a session without a CSRF token gets a new one.  A submission
    reaches a view only after [CSRFProtect] has found the token of the
    session in it (see [full_dispatch_request]), so on a submission the
    session has its token and nothing is stored. *)
Definition generate_csrf (request : Request) : M unit :=
  fun w =>
    if is_submitted request then (Ok tt, w)
    else
      match session w !! "csrf_token" with
      | Some _ => (Ok tt, w)
      | None =>
          (Ok tt,
           {| fs := fs w;
              session := <["csrf_token" := csrf_token_hex env (tokens_drawn w)]> (session w);
              uuids_drawn := uuids_drawn w;
              tokens_drawn := S (tokens_drawn w);
              trace := trace w |})
      end.

(** [UploadForm()] (line 75): the token of the session, then the fields. *)
Definition UploadForm_init (request : Request) : M UploadForm :=
  generate_csrf request ;;;
  ret (UploadForm_new request).

(** [form.pdf_file.data.save(dst)]; [data] is [None] when no file was
    bound. *)
Definition save_upload (data : option FileStorage) (dst : string) : M unit :=
  match data with
  | Some f => FileStorage_save f dst
  | None => raise (AttributeError "save")
  end.

(** [index] (lines 72-102). *)
Definition index (request : Request) : M Response :=
  form <- UploadForm_init request ;;
  let (valid, form) := validate_on_submit request form in
  if valid then
    pdf_temp_filename <- uuid4 ;;
    save_upload (pdf_file_data form) pdf_temp_filename ;;;
    pages <- load_and_split pdf_temp_filename ;;
    let combined_text := combined_text_of pages in
    let word_count := word_count_of combined_text in
    logging_debug (lit "pages: " ++ str_of_len (len pages)) ;;;
    logging_debug (lit "word_count combined: " ++ str_of_len word_count) ;;;
    response_text <-
      (if word_count <? 18500 then
         let prompt := prompt_of (text_input_data form) combined_text in
         logging_debug prompt ;;;
         response <- model_generate_content prompt generation_config ;;
         answer <- lift (text response) ;;
         ret (replace answer bullet_glyph (lit "  *"))
       else ret too_long_message) ;;
    markdown_response <- markdown response_text ;;
    session_set "markdown_response" markdown_response ;;;
    logging_debug (lit "Response: " ++ nl ++ markdown_response) ;;;
    os_remove pdf_temp_filename ;;;
    location <- url_for "pdf_results" ;;
    ret (redirect location)
  else render_template "index.html" (ctx_upload_form form).

(** [pdf_results] (lines 105-113). *)
Definition pdf_results : M Response :=
  html <- session_get "markdown_response" ;;
  render_template "pdf_results.html" (ctx_response_text html).

(** ** The application around the handlers *)

(** [app.view_functions]. *)
Definition view_functions (name : string) : option (Request -> M Response) :=
  if String.eqb name "index" then Some index
  else if String.eqb name "pdf_results" then Some (fun _ => pdf_results)
  else None.

(** The rule of the module a path matches.  The path is compared as it
    stands; werkzeug first strips extra leading slashes, which is left
    out here. *)
Definition match_rule (p : string) : option Rule :=
  head (List.filter (fun r => String.eqb (rule r) p) url_map).

(** Whether a rule answers a method: the methods it lists, HEAD where it
    lists GET, and OPTIONS, which Flask answers itself. *)
Definition rule_allows (r : Rule) (m : Method) : bool :=
  match m with
  | OPTIONS => true
  | HEAD => existsb (fun m' => bool_decide (m' = GET) || bool_decide (m' = HEAD)) (methods r)
  | _ => existsb (fun m' => bool_decide (m' = m)) (methods r)
  end.

(** The methods [CSRFProtect(app)] (line 43) checks a token on. *)
Definition csrf_checked (m : Method) : bool :=
  match m with
  | POST | PUT | PATCH | DELETE => true
  | GET | HEAD | OPTIONS => false
  end.

(** One request through the application: routing, the CSRF check that runs
    before every view, then the view. *)
Definition full_dispatch_request (request : Request) : M Response :=
  match match_rule (path request) with
  | None => ret (Aborted 404)
  | Some r =>
      if rule_allows r (method request) then
        if csrf_checked (method request) && negb (csrf_valid request)
        then ret (Aborted 400)
        else
          match method request with
          | OPTIONS => ret DefaultOptions
          | _ =>
              match view_functions (endpoint r) with
              | Some view => view request
              | None => ret (Aborted 404)
              end
          end
      else ret (Aborted 405)
  end.

(** What the client gets: an exception no handler catches is a 500. *)
Definition wsgi_app (request : Request) (w : World) : Response * World :=
  match full_dispatch_request request w with
  | (Ok response, w') => (response, w')
  | (Raise _, w') => (Aborted 500, w')
  end.

End App.

(** ** Reading a trace *)

(** The calls made between two worlds of one run. *)
Definition events_since (w w' : World) : list event :=
  drop (length (trace w)) (trace w').

(** The calls to the hosted model among some events, with their
    arguments. *)
Fixpoint generate_calls (evs : list event) : list (pystr * GenerationConfig) :=
  match evs with
  | [] => []
  | EvGenerate prompt config :: evs' => (prompt, config) :: generate_calls evs'
  | _ :: evs' => generate_calls evs'
  end.

(** The texts handed to the markdown converter among some events. *)
Fixpoint markdown_calls (evs : list event) : list pystr :=
  match evs with
  | [] => []
  | EvMarkdown source :: evs' => source :: markdown_calls evs'
  | _ :: evs' => markdown_calls evs'
  end.

(** Whether an event writes or removes a file on disk. *)
Definition writes_disk (e : event) : bool :=
  match e with
  | EvSave _ _ | EvRemove _ => true
  | EvLoadAndSplit _ | EvLog _ | EvGenerate _ _ | EvMarkdown _ => false
  end.

(** ** Reading a run *)

(** The handler's test on a request. *)
Definition passes_validation (request : Request) : bool :=
  fst (validate_on_submit request (UploadForm_new request)).

(** The instruction the handler reads: [form.text_input.data]. *)
Definition instruction_of (request : Request) : pystr :=
  text_input_data (UploadForm_new request).

(** The world a run that drew a uuid leaves: the files and the session it
    ends with, and the calls it made. *)
Definition after_run (w : World) (files : gmap string (list byte))
    (sess : gmap string pystr) (evs : list event) : World :=
  {| fs := files; session := sess; uuids_drawn := S (uuids_drawn w);
     tokens_drawn := tokens_drawn w; trace := trace w ++ evs |}.

(** The first calls of every validated run: the upload is saved, parsed,
    and the two sizes are logged. *)
Definition extraction_events (name : string) (upload : FileStorage)
    (pages : list Document) : list event :=
  [EvSave name (stream upload); EvLoadAndSplit name;
   EvLog (lit "pages: " ++ str_of_len (len pages));
   EvLog (lit "word_count combined: "
          ++ str_of_len (word_count_of (combined_text_of pages)))].

(** The last calls of a run that reaches its end. *)
Definition rendering_events (env : Collaborators) (name : string)
    (response_text : pystr) : list event :=
  [EvMarkdown response_text;
   EvLog (lit "Response: " ++ nl ++ markdown_markdown env response_text);
   EvRemove name].

(** The failures of a validated upload: the parser raises, the hosted
    model raises, or reading its answer raises. *)
Definition upload_fails (env : Collaborators) (request : Request)
    (upload : FileStorage) (e : exn) : Prop :=
  parse_pdf env (stream upload) = Raise e
  \/ exists pages,
       parse_pdf env (stream upload) = Ok pages
       /\ word_count_of (combined_text_of pages) < 18500
       /\ (generate_content env
             (prompt_of (instruction_of request) (combined_text_of pages))
             generation_config = Raise e
           \/ exists response,
                generate_content env
                  (prompt_of (instruction_of request) (combined_text_of pages))
                  generation_config = Ok response
                /\ text response = Raise e).

(** ** Test doubles of the collaborators *)

Definition demo_uuid4_str (n : nat) : string := "upload-" +:+ pretty n.

(** Pages of a test file: its bytes read as Latin-1, cut at form feeds. *)
Fixpoint demo_pages (page : pystr) (content : list byte) : list pystr :=
  match content with
  | [] => [reverse page]
  | b :: rest =>
      if (Byte.to_N b =? 0x0C)%N then reverse page :: demo_pages [] rest
      else demo_pages (Byte.to_N b :: page) rest
  end.

(** A parser that rejects the empty file. *)
Definition demo_parse_pdf (content : list byte) : result (list Document) :=
  match content with
  | [] => Raise (ExtractionError (lit "empty file"))
  | _ => Ok (map (fun p => {| page_content := p |}) (demo_pages [] content))
  end.

(** A model that answers every prompt with one mis-decoded bullet and is
    out of quota for prompts that start with an exclamation mark. *)
Definition demo_generate_content (prompt : pystr) (config : GenerationConfig)
    : result GenerationResponse :=
  if startswith prompt (lit "!") then Raise (InferenceError (lit "quota"))
  else Ok {| text := Ok (bullet_glyph ++ lit " a summary") |}.

(** A converter that wraps its input in one paragraph. *)
Definition demo_markdown (source : pystr) : pystr :=
  lit "<p>" ++ source ++ lit "</p>".

(** Tokens that count up. *)
Definition demo_csrf_token_hex (n : nat) : pystr := lit ("token-" +:+ pretty n).

Definition demo : Collaborators :=
  {| uuid4_str := demo_uuid4_str;
     parse_pdf := demo_parse_pdf;
     generate_content := demo_generate_content;
     markdown_markdown := demo_markdown;
     csrf_token_hex := demo_csrf_token_hex |}.

Definition demo_world : World :=
  {| fs := ∅; session := ∅; uuids_drawn := 0%nat; tokens_drawn := 0%nat; trace := [] |}.

(** A POST of [content] under the file name [name] with the instruction
    [instruction]. *)
Definition demo_upload (name : string) (content : list byte) (instruction : option pystr)
    : Request :=
  {| method := POST;
     path := "/";
     csrf_valid := true;
     files := [("pdf_file", {| filename := lit name; stream := content |})];
     form := match instruction with
             | Some i => [("text_input", i)]
             | None => []
             end |}.

(** A text of [n] words, one page. *)
Definition demo_words (n : N) : list byte :=
  concat (repeat (list_byte_of_string "w ") (N.to_nat n)).

(** The uploads the examples run. *)
Definition three_page_upload : Request :=
  demo_upload "paper.pdf"
    (list_byte_of_string "alpha beta" ++ [x0c] ++ list_byte_of_string "gamma"
     ++ [x0c] ++ list_byte_of_string "delta epsilon")
    (Some (lit "Summarize the PDF.")).

Definition authors_upload : Request :=
  demo_upload "paper.pdf"
    (list_byte_of_string "alpha beta" ++ [x0c] ++ list_byte_of_string "gamma"
     ++ [x0c] ++ list_byte_of_string "delta epsilon")
    (Some (lit "List the authors.")).

Definition boundary_upload : Request :=
  demo_upload "long.pdf" (demo_words 18500) None.

Definition quota_upload : Request :=
  demo_upload "paper.pdf" (list_byte_of_string "alpha beta") (Some (lit "!")).

Definition text_upload : Request :=
  demo_upload "notes.txt" (list_byte_of_string "alpha beta") None.

Definition missing_file_upload : Request :=
  {| method := POST; path := "/"; csrf_valid := true; files := [];
     form := [("text_input", lit "Summarize the PDF.")] |}.

Definition blank_instruction_upload : Request :=
  demo_upload "paper.pdf" (list_byte_of_string "alpha beta") (Some []).

(** A request for the results view. *)
Definition results_request (m : Method) (token : bool) : Request :=
  {| method := m; path := "/pdf_results"; csrf_valid := token; files := []; form := [] |}.

(** A world in which an earlier upload left its result in the session. *)
Definition demo_stored : World :=
  {| fs := ∅; session := {[ "markdown_response" := lit "<p>done</p>" ]};
     uuids_drawn := 1%nat; tokens_drawn := 0%nat; trace := [] |}.

(** More requests for the examples. *)
Definition get_index_request : Request :=
  {| method := GET; path := "/"; csrf_valid := false; files := []; form := [] |}.

Definition tokenless_upload : Request :=
  {| method := POST; path := "/"; csrf_valid := false;
     files := [("pdf_file", {| filename := lit "paper.pdf";
                               stream := list_byte_of_string "alpha beta" |})];
     form := [] |}.

Definition delete_request : Request :=
  {| method := DELETE; path := "/pdf_results"; csrf_valid := true;
     files := []; form := [] |}.

Definition second_upload : Request :=
  demo_upload "notes.pdf" (list_byte_of_string "zeta") None.

Definition shouting_upload : Request :=
  {| method := POST; path := "/"; csrf_valid := true;
     files := [("pdf_file", {| filename := lit "REPORT.PDF";
                               stream := list_byte_of_string "not a pdf" |});
               ("pdf_file", {| filename := lit "other.txt"; stream := [] |})];
     form := [("text_input", [])] |}.

Definition unnamed_upload : Request :=
  {| method := POST; path := "/"; csrf_valid := true;
     files := [("pdf_file", {| filename := []; stream := [] |})];
     form := [] |}.

Definition blank_upload : Request :=
  demo_upload "blank.pdf"
    (list_byte_of_string " " ++ [x0c] ++ list_byte_of_string "  ") None.

Section Properties.

(** Any collaborators. *)
Variable env : Collaborators.

(** ** The string operations on small inputs *)

Example split_drops_all_whitespace :
  split (lit "  two   words" ++ nl ++ nl ++ lit "here" ++ [0xA0%N])
    = [lit "two"; lit "words"; lit "here"].
Proof. reflexivity. Qed.

Example join_puts_blank_lines_between :
  join (nl ++ nl) [lit "a"; lit "b"; lit "c"]
    = lit "a" ++ nl ++ nl ++ lit "b" ++ nl ++ nl ++ lit "c".
Proof. reflexivity. Qed.

Example replace_repairs_every_bullet :
  replace (bullet_glyph ++ lit " one" ++ nl ++ bullet_glyph ++ lit " two")
    bullet_glyph (lit "  *")
    = lit "  * one" ++ nl ++ lit "  * two".
Proof. reflexivity. Qed.

Example extension_test_ignores_case :
  extension_allowed [lit "pdf"] {| filename := lit "REPORT.PDF"; stream := [] |} = true
  /\ extension_allowed [lit "pdf"] {| filename := lit "pdf"; stream := [] |} = false.
Proof. split; reflexivity. Qed.

(** Every word [split] returns is non-empty and free of whitespace. *)
Lemma split_ws_words (word s : pystr) :
  Forall (fun c => isspace c = false) word ->
  Forall (fun found => found <> [] /\ Forall (fun c => isspace c = false) found)
    (split_ws word s).
Proof.
  revert word. induction s as [|c rest IH]; intros word Hword; simpl.
  - destruct word as [|c' word']; [constructor|].
    constructor; [|constructor]. split.
    + simpl. destruct (rev word'); discriminate.
    + apply Forall_rev. exact Hword.
  - destruct (isspace c) eqn:Hc.
    + destruct word as [|c' word']; [apply IH; constructor|].
      constructor; [|apply IH; constructor]. split.
      * simpl. destruct (rev word'); discriminate.
      * apply Forall_rev. exact Hword.
    + apply IH. constructor; assumption.
Qed.

Lemma split_words (s : pystr) :
  Forall (fun found => found <> [] /\ Forall (fun c => isspace c = false) found) (split s).
Proof. apply split_ws_words. constructor. Qed.

(** Splitting reads through a whitespace character: the words before it,
    then the words after it. *)
Lemma split_ws_app (word a b : pystr) (c : N) :
  isspace c = true ->
  split_ws word (a ++ c :: b) = split_ws word a ++ split_ws [] b.
Proof.
  intros Hc. revert word. induction a as [|x a IH]; intros word; simpl.
  - rewrite Hc. destruct word; reflexivity.
  - destruct (isspace x).
    + destruct word; rewrite IH; reflexivity.
    + apply IH.
Qed.

(** X11.  The gate counts the words of the pages: the blank line between
    two pages adds none. *)
Lemma word_count_of_pages (pages : list Document) :
  word_count_of (combined_text_of pages)
    = foldr Z.add 0 (map (fun p => word_count_of (page_content p)) pages).
Proof.
  unfold word_count_of, combined_text_of, len.
  induction pages as [|p [|q pages] IH].
  - reflexivity.
  - simpl. lia.
  - change (join (nl ++ nl) (map page_content (p :: q :: pages)))
      with (page_content p ++ 10%N :: [10%N] ++ join (nl ++ nl) (map page_content (q :: pages))).
    unfold split in *. rewrite split_ws_app by reflexivity.
    rewrite length_app.
    change (split_ws [] ([10%N] ++ ?t)) with (split_ws [] t).
    change (map ?f (p :: ?l)) with (f p :: map f l).
    change (foldr Z.add 0 (?x :: ?l)) with (x + foldr Z.add 0 l).
    rewrite <- IH. lia.
Qed.

(** ** Validation and the runs of [index] *)

Lemma run_chain_pdf_file (data : option FileStorage) :
  run_chain pdf_file_validators data =
    match data with
    | Some f =>
        if file_truthy f then
          if endswith (lower (filename f)) (lit ".pdf") then []
          else [lit "Please select a PDF."]
        else [lit "This field is required."]
    | None => [lit "This field is required."]
    end.
Proof.
  destruct data as [f|]; simpl; [|reflexivity].
  destruct (file_truthy f); simpl; [|reflexivity].
  unfold extension_allowed; simpl. rewrite orb_false_r.
  change (lit "." ++ lit "pdf") with (lit ".pdf").
  destruct (endswith _ _); reflexivity.
Qed.

Lemma passes_validation_true (request : Request) :
  passes_validation request = true ->
  exists upload,
    pdf_file_data (UploadForm_new request) = Some upload
    /\ is_submitted request = true
    /\ file_truthy upload = true
    /\ endswith (lower (filename upload)) (lit ".pdf") = true
    /\ validate_on_submit request (UploadForm_new request)
       = (true, UploadForm_new request).
Proof.
  unfold passes_validation, validate_on_submit, validate.
  rewrite run_chain_pdf_file.
  destruct (is_submitted request) eqn:Hs; [|discriminate].
  unfold UploadForm_new; rewrite Hs; simpl.
  destruct (FileField_process "pdf_file" request) as [f|]; [|discriminate].
  destruct (file_truthy f) eqn:Ht; [|discriminate].
  destruct (endswith _ _) eqn:He; [|discriminate].
  intros _. exists f. repeat split; auto.
Qed.

Lemma FileField_process_truthy (name : string) (request : Request) (f : FileStorage) :
  FileField_process name request = Some f -> file_truthy f = true.
Proof.
  unfold FileField_process.
  induction (getlist name (files request)) as [|g l IH]; simpl; [discriminate|].
  destruct (file_truthy g) eqn:Hg; simpl; [intros [= <-]; exact Hg|exact IH].
Qed.

(** The token step always returns, and on a submission it stores
    nothing. *)
Lemma generate_csrf_returns (request : Request) (w : World) :
  generate_csrf env request w = (Ok tt, snd (generate_csrf env request w)).
Proof.
  unfold generate_csrf. destruct (is_submitted request); [reflexivity|].
  destruct (session w !! "csrf_token"); reflexivity.
Qed.

Lemma generate_csrf_submitted (request : Request) (w : World) :
  is_submitted request = true -> snd (generate_csrf env request w) = w.
Proof. intros Hs. unfold generate_csrf. rewrite Hs. reflexivity. Qed.

Lemma bind_returns {A B : Type} (m : M A) (k : A -> M B) (w w' : World) (a : A) :
  m w = (Ok a, w') -> bind m k w = k a w'.
Proof. intros H. unfold bind. rewrite H. reflexivity. Qed.

Lemma UploadForm_init_returns (request : Request) (w : World) :
  UploadForm_init env request w
    = (Ok (UploadForm_new request), snd (generate_csrf env request w)).
Proof.
  unfold UploadForm_init, bind. rewrite generate_csrf_returns. reflexivity.
Qed.

(** A validated upload, step by step: every way the run can end, with the
    world it leaves. *)
Lemma index_valid (request : Request) (upload : FileStorage) (w : World) :
  passes_validation request = true ->
  pdf_file_data (UploadForm_new request) = Some upload ->
  index env request w =
    let name := uuid4_str env (uuids_drawn w) in
    let saved := <[name := stream upload]> (fs w) in
    match parse_pdf env (stream upload) with
    | Raise e =>
        (Raise e,
         after_run w saved (session w) [EvSave name (stream upload); EvLoadAndSplit name])
    | Ok pages =>
        let combined_text := combined_text_of pages in
        if word_count_of combined_text <? 18500 then
          let prompt := prompt_of (instruction_of request) combined_text in
          let asked :=
            extraction_events name upload pages
            ++ [EvLog prompt; EvGenerate prompt generation_config] in
          match generate_content env prompt generation_config with
          | Raise e => (Raise e, after_run w saved (session w) asked)
          | Ok response =>
              match text response with
              | Raise e => (Raise e, after_run w saved (session w) asked)
              | Ok answer =>
                  let response_text := replace answer bullet_glyph (lit "  *") in
                  (Ok (redirect "/pdf_results"),
                   after_run w (delete name saved)
                     (<["markdown_response" := markdown_markdown env response_text]> (session w))
                     (asked ++ rendering_events env name response_text))
              end
          end
        else
          (Ok (redirect "/pdf_results"),
           after_run w (delete name saved)
             (<["markdown_response" := markdown_markdown env too_long_message]> (session w))
             (extraction_events name upload pages
              ++ rendering_events env name too_long_message))
    end.
Proof.
  intros Hv Hd. destruct (passes_validation_true _ Hv) as (u & Hu & Hs & Ht & He & Hval).
  assert (Hinit : UploadForm_init env request w = (Ok (UploadForm_new request), w))
    by (rewrite UploadForm_init_returns, (generate_csrf_submitted request w Hs);
        reflexivity).
  etransitivity; [exact (bind_returns _ _ _ _ _ Hinit)|].
  unfold instruction_of. rewrite Hval, Hd.
  unfold bind, uuid4, save_upload, FileStorage_save, load_and_split, with_fs,
    record_event, after_run. cbn [fs session uuids_drawn tokens_drawn trace].
  rewrite lookup_insert_eq.
  destruct (parse_pdf env (stream upload)) as [pages|e];
    [|cbv zeta; rewrite <- app_assoc; reflexivity].
  cbv zeta.
  destruct (word_count_of (combined_text_of pages) <? 18500)%Z.
  - unfold logging_debug, model_generate_content, record_event, lift.
    cbn [fs session uuids_drawn tokens_drawn trace].
    destruct (generate_content env _ _) as [response|e];
      [|rewrite <- !app_assoc; reflexivity].
    destruct (text response) as [answer|e];
      [|rewrite <- !app_assoc; reflexivity].
    unfold ret, markdown, session_set, os_remove, with_session, with_fs, record_event.
    cbn [fs session uuids_drawn tokens_drawn trace].
    rewrite lookup_insert_eq. cbn [fs session uuids_drawn tokens_drawn trace].
    rewrite <- !app_assoc. reflexivity.
  - unfold logging_debug, ret, markdown, session_set, os_remove, with_session,
      with_fs, record_event.
    cbn [fs session uuids_drawn tokens_drawn trace].
    rewrite lookup_insert_eq. cbn [fs session uuids_drawn tokens_drawn trace].
    rewrite <- !app_assoc. reflexivity.
Qed.

(** A validated run that returns: the branch it took and the world it
    leaves. *)
Lemma index_valid_returns (request : Request) (upload : FileStorage)
    (w w' : World) (response : Response) :
  passes_validation request = true ->
  pdf_file_data (UploadForm_new request) = Some upload ->
  index env request w = (Ok response, w') ->
  exists pages asked response_text,
    parse_pdf env (stream upload) = Ok pages
    /\ response = redirect "/pdf_results"
    /\ w' = after_run w
              (delete (uuid4_str env (uuids_drawn w))
                 (<[uuid4_str env (uuids_drawn w) := stream upload]> (fs w)))
              (<["markdown_response" := markdown_markdown env response_text]> (session w))
              (extraction_events (uuid4_str env (uuids_drawn w)) upload pages
               ++ asked ++ rendering_events env (uuid4_str env (uuids_drawn w)) response_text)
    /\ ((18500 <= word_count_of (combined_text_of pages)
         /\ asked = [] /\ response_text = too_long_message)
        \/ (word_count_of (combined_text_of pages) < 18500
            /\ asked = [EvLog (prompt_of (instruction_of request) (combined_text_of pages));
                        EvGenerate (prompt_of (instruction_of request) (combined_text_of pages))
                          generation_config]
            /\ exists response answer,
                 generate_content env (prompt_of (instruction_of request) (combined_text_of pages))
                   generation_config = Ok response
                 /\ text response = Ok answer
                 /\ response_text = replace answer bullet_glyph (lit "  *"))).
Proof.
  intros Hv Hd. rewrite (index_valid request upload w Hv Hd). cbv zeta.
  destruct (parse_pdf env (stream upload)) as [pages|e]; [|discriminate].
  destruct (word_count_of (combined_text_of pages) <? 18500) eqn:Hwc.
  - apply Z.ltb_lt in Hwc.
    destruct (generate_content env _ _) as [resp|e] eqn:Hg; [|discriminate].
    destruct (text resp) as [answer|e] eqn:Ht; [|discriminate].
    intros Heq. pose proof (f_equal fst Heq) as Hr. pose proof (f_equal snd Heq) as Hw.
    cbn [fst snd] in Hr, Hw. subst w'. injection Hr as <-. clear Heq.
    eexists pages, _, _.
    split; [reflexivity|]. split; [reflexivity|].
    split; [rewrite <- app_assoc; reflexivity|].
    right. split; [exact Hwc|]. split; [reflexivity|].
    exists resp, answer. auto.
  - apply Z.ltb_ge in Hwc.
    intros Heq. pose proof (f_equal fst Heq) as Hr. pose proof (f_equal snd Heq) as Hw.
    cbn [fst snd] in Hr, Hw. subst w'. injection Hr as <-. clear Heq.
    exists pages, [], too_long_message.
    split; [reflexivity|]. split; [reflexivity|]. split; [reflexivity|].
    left. auto.
Qed.

(** A run on a request that fails validation: the form comes back with its
    errors, and the world is as the token step left it. *)
Lemma index_invalid (request : Request) (w : World) :
  passes_validation request = false ->
  index env request w =
    (Ok (Rendered "index.html"
           (ctx_upload_form (snd (validate_on_submit request (UploadForm_new request))))),
     snd (generate_csrf env request w)).
Proof.
  unfold passes_validation. intros Hv.
  etransitivity;
    [exact (bind_returns _ _ _ _ _ (UploadForm_init_returns request w))|].
  destruct (validate_on_submit request (UploadForm_new request)) as [valid form].
  simpl in Hv. subst valid. reflexivity.
Qed.

Lemma events_since_after_run (w : World) files sess evs :
  events_since w (after_run w files sess evs) = evs.
Proof. unfold events_since, after_run; simpl. apply drop_app_length. Qed.

(** ** The claims *)

(** C1.  The size gate.  On a validated upload whose pages were extracted,
    the gate value is the length of the whitespace split of the combined
    text.  When it is 18500 or more (18500 included) the handler answers
    with the redirect, hands the fixed rejection message to the markdown
    converter, stores its conversion in the session and never calls the
    hosted model; when it is below 18500 the hosted model is called. *)
Theorem size_gate_selects_branch
    (request : Request) (upload : FileStorage) (pages : list Document) (w : World) :
  passes_validation request = true ->
  pdf_file_data (UploadForm_new request) = Some upload ->
  parse_pdf env (stream upload) = Ok pages ->
  word_count_of (combined_text_of pages)
    = Z.of_nat (length (split (join (nl ++ nl) (map page_content pages))))
  /\ (18500 <= word_count_of (combined_text_of pages) ->
      fst (index env request w) = Ok (redirect "/pdf_results")
      /\ markdown_calls (events_since w (snd (index env request w))) = [too_long_message]
      /\ session (snd (index env request w)) !! "markdown_response"
         = Some (markdown_markdown env too_long_message)
      /\ generate_calls (events_since w (snd (index env request w))) = [])
  /\ (word_count_of (combined_text_of pages) < 18500 ->
      length (generate_calls (events_since w (snd (index env request w)))) = 1%nat).
Proof.
  intros Hv Hd Hp. split; [reflexivity|].
  rewrite (index_valid request upload w Hv Hd), Hp. cbv zeta.
  split; intros Hwc.
  - apply Z.ltb_ge in Hwc. rewrite Hwc. cbn [fst snd].
    rewrite events_since_after_run. cbn [session after_run].
    rewrite lookup_insert_eq. repeat split; reflexivity.
  - apply Z.ltb_lt in Hwc. rewrite Hwc.
    destruct (generate_content env _ _) as [response|e];
      [destruct (text response) as [answer|e]|];
      cbn [snd]; rewrite events_since_after_run; reflexivity.
Qed.

(** C2.  On a validated upload whose extracted text has fewer than 18500
    words, the hosted model is called exactly once, with the generation
    parameters of the module and one prompt: the instruction, the fixed
    sentence, a blank line, the label and the page texts joined by blank
    lines, in the order of the pages.  When the body has no file part named
    [text_input], the instruction is the first text sent under that name,
    as it was sent, or the default when none was sent.  This holds whether
    the call returns or raises. *)
Theorem inference_called_once_with_prompt
    (request : Request) (upload : FileStorage) (pages : list Document) (w : World) :
  passes_validation request = true ->
  pdf_file_data (UploadForm_new request) = Some upload ->
  parse_pdf env (stream upload) = Ok pages ->
  word_count_of (combined_text_of pages) < 18500 ->
  exists instruction,
    generate_calls (events_since w (snd (index env request w)))
      = [(instruction ++ lit " Use information from the PDF to respond."
          ++ nl ++ nl ++ lit "PDF:" ++ nl ++ join (nl ++ nl) (map page_content pages),
          generation_config)]
    /\ (getlist "text_input" (files request) = [] ->
        instruction = match getlist "text_input" (form request) with
                      | sent :: _ => sent
                      | [] => lit "Summarize the PDF."
                      end).
Proof.
  intros Hv Hd Hp Hwc. exists (instruction_of request). split.
  - rewrite (index_valid request upload w Hv Hd), Hp. cbv zeta.
    apply Z.ltb_lt in Hwc. rewrite Hwc.
    destruct (generate_content env _ _) as [response|e];
      [destruct (text response) as [answer|e]|];
      cbn [snd]; rewrite events_since_after_run; reflexivity.
  - intros _. destruct (passes_validation_true _ Hv) as (_ & _ & Hs & _).
    unfold instruction_of, UploadForm_new. rewrite Hs. reflexivity.
Qed.

(** C3.  The temporary file.  On a validated upload whose pages were
    extracted, on the oversized branch and on the inference branch when the
    hosted model answers, the handler returns; the file is named by a fresh
    uuid draw, is saved first and parsed second, and is removed last, after
    the response text went through the converter; nothing in between
    touches the disk.  When the request completes the file no longer
    exists, and the other files are as they were. *)
Theorem temp_file_written_then_removed
    (request : Request) (upload : FileStorage) (pages : list Document) (w : World) :
  passes_validation request = true ->
  pdf_file_data (UploadForm_new request) = Some upload ->
  parse_pdf env (stream upload) = Ok pages ->
  (18500 <= word_count_of (combined_text_of pages)
   \/ (word_count_of (combined_text_of pages) < 18500
       /\ exists response answer,
            generate_content env
              (prompt_of (instruction_of request) (combined_text_of pages))
              generation_config = Ok response
            /\ text response = Ok answer)) ->
  fst (index env request w) = Ok (redirect "/pdf_results")
  /\ fs (snd (index env request w)) !! uuid4_str env (uuids_drawn w) = None
  /\ fs (snd (index env request w)) = delete (uuid4_str env (uuids_drawn w)) (fs w)
  /\ (fs w !! uuid4_str env (uuids_drawn w) = None ->
      fs (snd (index env request w)) = fs w)
  /\ uuids_drawn (snd (index env request w)) = S (uuids_drawn w)
  /\ exists middle response_text,
       events_since w (snd (index env request w))
         = [EvSave (uuid4_str env (uuids_drawn w)) (stream upload);
            EvLoadAndSplit (uuid4_str env (uuids_drawn w))]
           ++ middle
           ++ [EvMarkdown response_text;
               EvLog (lit "Response: " ++ nl ++ markdown_markdown env response_text);
               EvRemove (uuid4_str env (uuids_drawn w))]
       /\ forallb (fun e => negb (writes_disk e)) middle = true.
Proof.
  intros Hv Hd Hp Hbranch.
  assert (Hrun : exists response w',
             index env request w = (Ok response, w')).
  { rewrite (index_valid request upload w Hv Hd), Hp. cbv zeta.
    destruct Hbranch as [Hwc|(Hwc & response & answer & Hg & Ht)].
    - apply Z.ltb_ge in Hwc. rewrite Hwc. eauto.
    - apply Z.ltb_lt in Hwc. rewrite Hwc, Hg, Ht. eauto. }
  destruct Hrun as (response & w' & Hrun). rewrite Hrun. cbn [fst snd].
  destruct (index_valid_returns _ _ _ _ _ Hv Hd Hrun)
    as (pages' & asked & response_text & _ & -> & -> & Hasked).
  rewrite events_since_after_run. cbn [fs uuids_drawn after_run].
  rewrite delete_insert_eq.
  split; [reflexivity|].
  split; [apply lookup_delete_eq|]. split; [reflexivity|].
  split; [apply delete_id|]. split; [reflexivity|].
  eexists (_ :: _ :: asked), response_text. split; [reflexivity|].
  destruct Hasked as [(_ & -> & _)|(_ & -> & _)]; reflexivity.
Qed.

(** C4, as amended.  The form has exactly one file field, [pdf_file]: the
    parts sent under that name decide validation, and a submission passes
    exactly when the field is bound to a file whose lower-cased name ends
    with [.pdf]; the instruction has no validator (an empty one is
    accepted) and is the default when the body has no part named
    [text_input], text or file.  A submission without a
    file, or with a file of another extension, gets the form back with the
    field's error, and the world is untouched: no temporary file, no
    extraction, no call to the hosted model. *)
Theorem invalid_upload_is_rejected_untouched (request : Request) (w : World) :
  is_submitted request = true ->
  (passes_validation request = true <->
      exists f, FileField_process "pdf_file" request = Some f
                /\ endswith (lower (filename f)) (lit ".pdf") = true)
  /\ (getlist "text_input" (files request) = [] ->
      getlist "text_input" (form request) = [] ->
      instruction_of request = lit "Summarize the PDF.")
  /\ (FileField_process "pdf_file" request = None ->
      index env request w
        = (Ok (Rendered "index.html"
                 (ctx_upload_form
                    {| pdf_file_data := None;
                       pdf_file_errors := [lit "This field is required."];
                       text_input_data := instruction_of request |})), w))
  /\ (forall f,
        FileField_process "pdf_file" request = Some f ->
        endswith (lower (filename f)) (lit ".pdf") = false ->
        index env request w
          = (Ok (Rendered "index.html"
                   (ctx_upload_form
                      {| pdf_file_data := Some f;
                         pdf_file_errors := [lit "Please select a PDF."];
                         text_input_data := instruction_of request |})), w))
  /\ (forall other,
        is_submitted other = true ->
        getlist "pdf_file" (files other) = getlist "pdf_file" (files request) ->
        passes_validation other = passes_validation request).
Proof.
  intros Hs.
  assert (Hval : validate_on_submit request (UploadForm_new request)
                 = validate (UploadForm_new request))
    by (unfold validate_on_submit; rewrite Hs; reflexivity).
  assert (Hdata : pdf_file_data (UploadForm_new request)
                  = FileField_process "pdf_file" request)
    by (unfold UploadForm_new; rewrite Hs; reflexivity).
  split; [|split; [|split; [|split]]].
  - unfold passes_validation. rewrite Hval. unfold validate. cbn [fst].
    rewrite run_chain_pdf_file, Hdata. split.
    + destruct (FileField_process "pdf_file" request) as [f|] eqn:Hf; [|discriminate].
      rewrite (FileField_process_truthy _ _ _ Hf).
      destruct (endswith _ _) eqn:He; [|discriminate].
      intros _. exists f. auto.
    + intros (f & Hf & He). rewrite Hf, (FileField_process_truthy _ _ _ Hf), He.
      reflexivity.
  - intros _ Hnone. unfold instruction_of, UploadForm_new, TextAreaField_process.
    rewrite Hs, Hnone. reflexivity.
  - intros Hnone. rewrite index_invalid.
    + rewrite (generate_csrf_submitted request w Hs).
      rewrite Hval. unfold validate. rewrite run_chain_pdf_file, Hdata, Hnone.
      reflexivity.
    + unfold passes_validation. rewrite Hval. unfold validate.
      rewrite run_chain_pdf_file, Hdata, Hnone. reflexivity.
  - intros f Hf He. rewrite index_invalid.
    + rewrite (generate_csrf_submitted request w Hs).
      rewrite Hval. unfold validate.
      rewrite run_chain_pdf_file, Hdata, Hf, (FileField_process_truthy _ _ _ Hf), He.
      reflexivity.
    + unfold passes_validation. rewrite Hval. unfold validate.
      rewrite run_chain_pdf_file, Hdata, Hf, (FileField_process_truthy _ _ _ Hf), He.
      reflexivity.
  - intros other Hso Hparts.
    unfold passes_validation, validate_on_submit, validate, UploadForm_new,
      FileField_process.
    rewrite Hs, Hso, Hparts. reflexivity.
Qed.

(** C5.  A GET of the results view runs [pdf_results], which renders the
    value the session holds under the key [markdown_response]: the one
    stored last.  When the key was never set the lookup raises [KeyError],
    no handler catches it, and the client gets the server error. *)
Theorem results_view_reads_session
    (w : World) (token : bool) (sent_files : list (string * FileStorage))
    (sent_form : list (string * pystr)) (html : pystr) :
  full_dispatch_request env
    {| method := GET; path := "/pdf_results"; csrf_valid := token;
       files := sent_files; form := sent_form |} w
    = pdf_results w
  /\ pdf_results w
     = match session w !! "markdown_response" with
       | Some stored => (Ok (Rendered "pdf_results.html" (ctx_response_text stored)), w)
       | None => (Raise (KeyError "markdown_response"), w)
       end
  /\ wsgi_app env
       {| method := GET; path := "/pdf_results"; csrf_valid := token;
          files := sent_files; form := sent_form |} w
     = match session w !! "markdown_response" with
       | Some stored => (Rendered "pdf_results.html" (ctx_response_text stored), w)
       | None => (Aborted 500, w)
       end
  /\ fst (pdf_results (snd (session_set "markdown_response" html w)))
     = Ok (Rendered "pdf_results.html" (ctx_response_text html)).
Proof.
  assert (Hview : pdf_results w
     = match session w !! "markdown_response" with
       | Some stored => (Ok (Rendered "pdf_results.html" (ctx_response_text stored)), w)
       | None => (Raise (KeyError "markdown_response"), w)
       end).
  { unfold pdf_results, bind, session_get.
    destruct (session w !! "markdown_response"); reflexivity. }
  split; [reflexivity|]. split; [exact Hview|]. split.
  - unfold wsgi_app.
    change (full_dispatch_request env _ w) with (pdf_results w). rewrite Hview.
    destruct (session w !! "markdown_response"); reflexivity.
  - unfold pdf_results, bind, session_get, session_set, with_session.
    cbn [fst snd session]. rewrite lookup_insert_eq. reflexivity.
Qed.

(** C6, as amended.  On every validated upload for which the handler
    returns, one text went through the markdown converter, its conversion
    is what the session holds under the key afterwards, and the response is
    a redirect to [/pdf_results] with the status 302, the default of
    [redirect]. *)
Theorem successful_upload_redirects
    (request : Request) (w w' : World) (response : Response) :
  passes_validation request = true ->
  index env request w = (Ok response, w') ->
  response = Redirect 302 "/pdf_results"
  /\ exists response_text,
       markdown_calls (events_since w w') = [response_text]
       /\ session w'
          = <["markdown_response" := markdown_markdown env response_text]> (session w).
Proof.
  intros Hv Hrun.
  destruct (passes_validation_true _ Hv) as (upload & Hd & _).
  destruct (index_valid_returns _ _ _ _ _ Hv Hd Hrun)
    as (pages & asked & response_text & Hp & -> & -> & Hbranch).
  split; [reflexivity|]. exists response_text.
  rewrite events_since_after_run. split; [|reflexivity].
  destruct Hbranch as [(_ & -> & _)|(_ & -> & _)]; reflexivity.
Qed.

(** C8.  No cleanup on failure.  When the parser raises, or the call to
    the hosted model raises, or reading its text raises, on a validated
    upload, the handler raises the same exception, the temporary file is
    still on disk with the uploaded bytes, it was never removed, and the
    session is as it was, the key [markdown_response] included. *)
Theorem failure_leaves_file_and_session
    (request : Request) (upload : FileStorage) (w : World) (e : exn) :
  passes_validation request = true ->
  pdf_file_data (UploadForm_new request) = Some upload ->
  (parse_pdf env (stream upload) = Raise e
   \/ exists pages,
        parse_pdf env (stream upload) = Ok pages
        /\ word_count_of (combined_text_of pages) < 18500
        /\ (generate_content env (prompt_of (instruction_of request) (combined_text_of pages))
              generation_config = Raise e
            \/ exists response,
                 generate_content env (prompt_of (instruction_of request) (combined_text_of pages))
                   generation_config = Ok response
                 /\ text response = Raise e)) ->
  fst (index env request w) = Raise e
  /\ fs (snd (index env request w)) !! uuid4_str env (uuids_drawn w) = Some (stream upload)
  /\ session (snd (index env request w)) = session w
  /\ session (snd (index env request w)) !! "markdown_response" = session w !! "markdown_response"
  /\ forallb (fun ev => match ev with EvRemove _ => false | _ => true end)
       (events_since w (snd (index env request w))) = true.
Proof.
  intros Hv Hd Hfail.
  rewrite (index_valid request upload w Hv Hd). cbv zeta.
  destruct Hfail as [Hp|(pages & Hp & Hwc & Hg)]; rewrite Hp.
  - cbn [fst snd fs session after_run]. rewrite events_since_after_run.
    rewrite lookup_insert_eq. repeat split; reflexivity.
  - apply Z.ltb_lt in Hwc. rewrite Hwc.
    destruct Hg as [Hg|(response & Hg & Ht)]; rewrite Hg; [|rewrite Ht];
      cbn [fst snd fs session after_run]; rewrite events_since_after_run;
      rewrite lookup_insert_eq; repeat split; reflexivity.
Qed.

(** C9, as amended.  The results route lists GET and POST.  A POST to
    [/pdf_results] that carries a valid CSRF token is answered as the GET
    is, by [pdf_results]; a POST without one is refused with the status 400
    before the view runs. *)
Theorem results_route_post_with_token_as_get (request : Request) (w : World) :
  path request = "/pdf_results" ->
  method request = POST ->
  (exists r, match_rule "/pdf_results" = Some r /\ methods r = [GET; POST])
  /\ (csrf_valid request = true ->
      full_dispatch_request env request w
        = full_dispatch_request env (with_method GET request) w
      /\ full_dispatch_request env request w = pdf_results w
      /\ wsgi_app env request w = wsgi_app env (with_method GET request) w)
  /\ (csrf_valid request = false ->
      full_dispatch_request env request w = (Ok (Aborted 400), w)).
Proof.
  intros Hpath Hmethod. split; [eexists; split; reflexivity|].
  unfold wsgi_app, full_dispatch_request. cbn [with_method path method csrf_valid].
  rewrite Hpath, Hmethod. cbn.
  split; intros ->; cbn; auto.
Qed.

(** C10.  The repair of the mis-decoded bullet.  On the oversized branch
    the markdown converter gets the fixed rejection message as it is; on the
    inference branch it gets the answer of the hosted model with every
    occurrence of U+00E2 U+20AC U+00A2 replaced by two spaces and a star. *)
Theorem bullet_repair_only_on_inference_branch
    (request : Request) (upload : FileStorage) (pages : list Document) (w : World) :
  passes_validation request = true ->
  pdf_file_data (UploadForm_new request) = Some upload ->
  parse_pdf env (stream upload) = Ok pages ->
  (18500 <= word_count_of (combined_text_of pages) ->
   markdown_calls (events_since w (snd (index env request w))) = [too_long_message])
  /\ (word_count_of (combined_text_of pages) < 18500 ->
      forall response answer,
        generate_content env (prompt_of (instruction_of request) (combined_text_of pages))
          generation_config = Ok response ->
        text response = Ok answer ->
        markdown_calls (events_since w (snd (index env request w)))
          = [replace answer [0xE2; 0x20AC; 0xA2]%N (lit "  *")]).
Proof.
  intros Hv Hd Hp.
  rewrite (index_valid request upload w Hv Hd), Hp. cbv zeta.
  split; intros Hwc.
  - apply Z.ltb_ge in Hwc. rewrite Hwc. cbn [snd].
    rewrite events_since_after_run. reflexivity.
  - apply Z.ltb_lt in Hwc. rewrite Hwc. intros response answer -> ->.
    cbn [snd]. rewrite events_since_after_run. reflexivity.
Qed.

(** X1.  After an upload that was too long, the results view renders the
    conversion of the fixed rejection message, as the converter returned
    it. *)
Theorem oversized_result_is_rendered_verbatim
    (request : Request) (upload : FileStorage) (pages : list Document) (w : World)
    (token : bool) (sent_files : list (string * FileStorage))
    (sent_form : list (string * pystr)) :
  passes_validation request = true ->
  pdf_file_data (UploadForm_new request) = Some upload ->
  parse_pdf env (stream upload) = Ok pages ->
  18500 <= word_count_of (combined_text_of pages) ->
  wsgi_app env
    {| method := GET; path := "/pdf_results"; csrf_valid := token;
       files := sent_files; form := sent_form |}
    (snd (index env request w))
  = (Rendered "pdf_results.html"
       (ctx_response_text (markdown_markdown env too_long_message)),
     snd (index env request w)).
Proof.
  intros Hv Hd Hp Hwc.
  rewrite (index_valid request upload w Hv Hd), Hp. cbv zeta.
  apply Z.ltb_ge in Hwc. rewrite Hwc. cbn [snd].
  unfold wsgi_app.
  change (full_dispatch_request env _ ?w') with (pdf_results w').
  unfold pdf_results, bind, session_get, after_run. cbn [session].
  rewrite lookup_insert_eq. reflexivity.
Qed.

End Properties.

(** ** The claims at concrete requests *)

(** Witness of C1: an upload of exactly 18500 words is rejected. *)
Lemma size_gate_rejects_exactly_18500_words :
  word_count_of
    (combined_text_of
       (map (fun p => {| page_content := p |}) (demo_pages [] (demo_words 18500))))
    = 18500
  /\ fst (index demo boundary_upload demo_world) = Ok (redirect "/pdf_results")
  /\ markdown_calls (events_since demo_world (snd (index demo boundary_upload demo_world)))
     = [too_long_message]
  /\ session (snd (index demo boundary_upload demo_world)) !! "markdown_response"
     = Some (demo_markdown too_long_message)
  /\ generate_calls (events_since demo_world (snd (index demo boundary_upload demo_world)))
     = [].
Proof.
  split; [vm_compute; reflexivity|].
  destruct (size_gate_selects_branch demo boundary_upload
              {| filename := lit "long.pdf"; stream := demo_words 18500 |}
              (map (fun p => {| page_content := p |}) (demo_pages [] (demo_words 18500)))
              demo_world)
    as (_ & Hrejects & _).
  - vm_compute; reflexivity.
  - reflexivity.
  - reflexivity.
  - apply Hrejects. vm_compute. discriminate.
Defined.

(** Witness of C2: an upload sent with an instruction of its own, and one
    sent without any. *)
Lemma submitted_instruction_reaches_prompt :
  generate_calls (events_since demo_world (snd (index demo authors_upload demo_world)))
    = [(lit "List the authors. Use information from the PDF to respond."
        ++ nl ++ nl ++ lit "PDF:" ++ nl
        ++ lit "alpha beta" ++ nl ++ nl ++ lit "gamma" ++ nl ++ nl ++ lit "delta epsilon",
        generation_config)]
  /\ generate_calls (events_since demo_world (snd (index demo second_upload demo_world)))
     = [(lit "Summarize the PDF. Use information from the PDF to respond."
         ++ nl ++ nl ++ lit "PDF:" ++ nl ++ lit "zeta",
         generation_config)].
Proof.
  split.
  - destruct (inference_called_once_with_prompt demo authors_upload
                {| filename := lit "paper.pdf";
                   stream := list_byte_of_string "alpha beta" ++ [x0c]
                             ++ list_byte_of_string "gamma" ++ [x0c]
                             ++ list_byte_of_string "delta epsilon" |}
                [ {| page_content := lit "alpha beta" |};
                  {| page_content := lit "gamma" |};
                  {| page_content := lit "delta epsilon" |} ]
                demo_world eq_refl eq_refl eq_refl ltac:(vm_compute; reflexivity))
      as (instruction & Hcalls & Hsent).
    rewrite (Hsent eq_refl) in Hcalls. exact Hcalls.
  - destruct (inference_called_once_with_prompt demo second_upload
                {| filename := lit "notes.pdf"; stream := list_byte_of_string "zeta" |}
                [ {| page_content := lit "zeta" |} ]
                demo_world eq_refl eq_refl eq_refl ltac:(vm_compute; reflexivity))
      as (instruction & Hcalls & Hsent).
    rewrite (Hsent eq_refl) in Hcalls. exact Hcalls.
Defined.

(** Witness of C3: the three-page upload, which takes the inference
    branch. *)
Lemma three_page_upload_leaves_no_file :
  fst (index demo three_page_upload demo_world) = Ok (redirect "/pdf_results")
  /\ fs (snd (index demo three_page_upload demo_world)) !! "upload-0" = None
  /\ fs (snd (index demo three_page_upload demo_world)) = delete "upload-0" (fs demo_world)
  /\ (fs demo_world !! "upload-0" = None ->
      fs (snd (index demo three_page_upload demo_world)) = fs demo_world)
  /\ uuids_drawn (snd (index demo three_page_upload demo_world)) = 1%nat.
Proof.
  destruct (temp_file_written_then_removed demo three_page_upload
              {| filename := lit "paper.pdf";
                 stream := list_byte_of_string "alpha beta" ++ [x0c]
                           ++ list_byte_of_string "gamma" ++ [x0c]
                           ++ list_byte_of_string "delta epsilon" |}
              [ {| page_content := lit "alpha beta" |};
                {| page_content := lit "gamma" |};
                {| page_content := lit "delta epsilon" |} ]
              demo_world)
    as (Hreturns & Hgone & Hfs & Hframe & Hdrawn & _).
  - reflexivity.
  - reflexivity.
  - reflexivity.
  - right. split; [vm_compute; reflexivity|].
    exists {| text := Ok (bullet_glyph ++ lit " a summary") |},
      (bullet_glyph ++ lit " a summary").
    split; reflexivity.
  - repeat split; assumption.
Defined.

(** Witness of C8: an upload the hosted model refuses, after an earlier
    result. *)
Lemma quota_failure_leaves_file_and_session :
  fst (index demo quota_upload demo_stored) = Raise (InferenceError (lit "quota"))
  /\ fs (snd (index demo quota_upload demo_stored)) !! "upload-1"
     = Some (list_byte_of_string "alpha beta")
  /\ session (snd (index demo quota_upload demo_stored)) !! "markdown_response"
     = Some (lit "<p>done</p>").
Proof.
  destruct (failure_leaves_file_and_session demo quota_upload
              {| filename := lit "paper.pdf"; stream := list_byte_of_string "alpha beta" |}
              demo_stored (InferenceError (lit "quota")))
    as (Hraise & Hfile & _ & Hkey & _).
  - reflexivity.
  - reflexivity.
  - right. exists [ {| page_content := lit "alpha beta" |} ].
    split; [reflexivity|]. split; [vm_compute; reflexivity|].
    left. reflexivity.
  - split; [exact Hraise|]. split; [exact Hfile|].
    transitivity (session demo_stored !! "markdown_response"); [exact Hkey|reflexivity].
Defined.

(** Witness of C10: the bullet in the answer to the three-page upload is
    repaired. *)
Lemma three_page_answer_is_repaired :
  markdown_calls (events_since demo_world (snd (index demo three_page_upload demo_world)))
    = [lit "  * a summary"].
Proof.
  destruct (bullet_repair_only_on_inference_branch demo three_page_upload
              {| filename := lit "paper.pdf";
                 stream := list_byte_of_string "alpha beta" ++ [x0c]
                           ++ list_byte_of_string "gamma" ++ [x0c]
                           ++ list_byte_of_string "delta epsilon" |}
              [ {| page_content := lit "alpha beta" |};
                {| page_content := lit "gamma" |};
                {| page_content := lit "delta epsilon" |} ]
              demo_world)
    as (_ & Hrepair).
  - reflexivity.
  - reflexivity.
  - reflexivity.
  - apply (Hrepair ltac:(vm_compute; reflexivity)
             {| text := Ok (bullet_glyph ++ lit " a summary") |}
             (bullet_glyph ++ lit " a summary")); reflexivity.
Defined.

(** Witness of C4: a [.txt] upload and a submission without a file. *)
Lemma text_file_is_rejected_untouched :
  index demo text_upload demo_world
    = (Ok (Rendered "index.html"
             (ctx_upload_form
                {| pdf_file_data :=
                     Some {| filename := lit "notes.txt";
                             stream := list_byte_of_string "alpha beta" |};
                   pdf_file_errors := [lit "Please select a PDF."];
                   text_input_data := lit "Summarize the PDF." |})), demo_world)
  /\ index demo missing_file_upload demo_world
     = (Ok (Rendered "index.html"
              (ctx_upload_form
                 {| pdf_file_data := None;
                    pdf_file_errors := [lit "This field is required."];
                    text_input_data := lit "Summarize the PDF." |})), demo_world).
Proof.
  split.
  - destruct (invalid_upload_is_rejected_untouched demo text_upload demo_world)
      as (_ & _ & _ & Hext & _).
    + reflexivity.
    + apply Hext; reflexivity.
  - destruct (invalid_upload_is_rejected_untouched demo missing_file_upload demo_world)
      as (_ & _ & Hmissing & _).
    + reflexivity.
    + apply Hmissing; reflexivity.
Defined.

(** Counterexample to C4 as first stated: an upload with an empty
    instruction passes validation and is sent to the hosted model. *)
Lemma blank_instruction_is_accepted :
  passes_validation blank_instruction_upload = true
  /\ instruction_of blank_instruction_upload = []
  /\ fst (index demo blank_instruction_upload demo_world) = Ok (Redirect 302 "/pdf_results")
  /\ generate_calls (trace (snd (index demo blank_instruction_upload demo_world)))
     = [(lit " Use information from the PDF to respond." ++ nl ++ nl ++ lit "PDF:" ++ nl
         ++ lit "alpha beta", generation_config)].
Proof. vm_compute. repeat split; reflexivity. Qed.

(** Witness of C5: a session that holds no result and one that holds
    one. *)
Lemma results_view_on_demo_sessions :
  wsgi_app demo (results_request GET false) demo_world = (Aborted 500, demo_world)
  /\ wsgi_app demo (results_request GET false) demo_stored
     = (Rendered "pdf_results.html" (ctx_response_text (lit "<p>done</p>")), demo_stored).
Proof.
  split.
  - exact (proj1 (proj2 (proj2
      (results_view_reads_session demo demo_world false [] [] [])))).
  - exact (proj1 (proj2 (proj2
      (results_view_reads_session demo demo_stored false [] [] [])))).
Defined.

(** Witness of C6: the three-page upload. *)
Lemma three_page_upload_redirects :
  fst (index demo three_page_upload demo_world) = Ok (Redirect 302 "/pdf_results")
  /\ exists response_text,
       markdown_calls (events_since demo_world (snd (index demo three_page_upload demo_world)))
         = [response_text]
       /\ session (snd (index demo three_page_upload demo_world))
          = <["markdown_response" := demo_markdown response_text]> (session demo_world).
Proof.
  destruct (successful_upload_redirects demo three_page_upload demo_world
              (snd (index demo three_page_upload demo_world))
              (match fst (index demo three_page_upload demo_world) with
               | Ok response => response
               | Raise _ => Aborted 500
               end))
    as (Hresponse & Hstored).
  - reflexivity.
  - vm_compute. reflexivity.
  - split; [|exact Hstored]. vm_compute. reflexivity.
Defined.

(** Counterexample to C6 as first stated: the status of the redirect is
    302. *)
Lemma upload_redirect_is_302_not_303 :
  fst (index demo three_page_upload demo_world) = Ok (Redirect 302 "/pdf_results")
  /\ fst (index demo three_page_upload demo_world) <> Ok (Redirect 303 "/pdf_results").
Proof. vm_compute. split; [reflexivity|discriminate]. Qed.

(** Witness of C9: a POST with a valid token. *)
Lemma post_with_token_renders_stored_result :
  full_dispatch_request demo (results_request POST true) demo_stored
    = full_dispatch_request demo (results_request GET true) demo_stored
  /\ full_dispatch_request demo (results_request POST true) demo_stored
     = pdf_results demo_stored
  /\ wsgi_app demo (results_request POST true) demo_stored
     = wsgi_app demo (results_request GET true) demo_stored.
Proof.
  destruct (results_route_post_with_token_as_get demo (results_request POST true)
              demo_stored) as (_ & Hsame & _).
  - reflexivity.
  - reflexivity.
  - apply Hsame. reflexivity.
Defined.

(** Counterexample to C9 as first stated: a POST without a token is
    refused where the GET renders the stored result. *)
Lemma post_without_token_is_not_get :
  wsgi_app demo (results_request POST false) demo_stored = (Aborted 400, demo_stored)
  /\ wsgi_app demo (results_request GET false) demo_stored
     = (Rendered "pdf_results.html" (ctx_response_text (lit "<p>done</p>")), demo_stored)
  /\ wsgi_app demo (results_request POST false) demo_stored
     <> wsgi_app demo (results_request GET false) demo_stored.
Proof.
  split; [reflexivity|]. split; [reflexivity|].
  intros H. vm_compute in H. discriminate H.
Qed.

(** Witness of X1: the upload of exactly 18500 words. *)
Lemma boundary_upload_shows_rejection :
  wsgi_app demo (results_request GET false) (snd (index demo boundary_upload demo_world))
  = (Rendered "pdf_results.html" (ctx_response_text (demo_markdown too_long_message)),
     snd (index demo boundary_upload demo_world)).
Proof.
  apply (oversized_result_is_rendered_verbatim demo boundary_upload
           {| filename := lit "long.pdf"; stream := demo_words 18500 |}
           (map (fun p => {| page_content := p |}) (demo_pages [] (demo_words 18500)))
           demo_world false [] []).
  - vm_compute; reflexivity.
  - reflexivity.
  - reflexivity.
  - vm_compute. discriminate.
Defined.

(** * More of the module *)

Section Coverage.

Variable env : Collaborators.

(** ** Frame of a run of [index] *)

(** What the token step can change: the CSRF token of a session that had
    none. *)
Lemma generate_csrf_frame (request : Request) (w : World) :
  fs (snd (generate_csrf env request w)) = fs w
  /\ uuids_drawn (snd (generate_csrf env request w)) = uuids_drawn w
  /\ trace (snd (generate_csrf env request w)) = trace w
  /\ session (snd (generate_csrf env request w))
     = (if is_submitted request then session w
        else match session w !! "csrf_token" with
             | Some _ => session w
             | None => <["csrf_token" := csrf_token_hex env (tokens_drawn w)]> (session w)
             end).
Proof.
  unfold generate_csrf. destruct (is_submitted request); [repeat split|].
  destruct (session w !! "csrf_token"); repeat split.
Qed.

(** X2.  What a run of [index] can change, whatever the request and however
    the run ends: it only appends to the trace, with at most one call to
    the hosted model and at most one conversion; it draws at most one uuid;
    on disk it touches no file but the one named by that draw; in the
    session it touches no key but [markdown_response] and [csrf_token], and
    a CSRF token the session already holds stays as it is. *)
Theorem index_frame (request : Request) (w : World) :
  (exists evs,
     trace (snd (index env request w)) = trace w ++ evs
     /\ (length (generate_calls evs) <= 1)%nat
     /\ (length (markdown_calls evs) <= 1)%nat)
  /\ (uuids_drawn (snd (index env request w)) = uuids_drawn w
      \/ uuids_drawn (snd (index env request w)) = S (uuids_drawn w))
  /\ (forall p, p <> uuid4_str env (uuids_drawn w) ->
        fs (snd (index env request w)) !! p = fs w !! p)
  /\ (forall k, k <> "markdown_response" -> k <> "csrf_token" ->
        session (snd (index env request w)) !! k = session w !! k)
  /\ (forall token, session w !! "csrf_token" = Some token ->
        session (snd (index env request w)) !! "csrf_token" = Some token).
Proof.
  destruct (passes_validation request) eqn:Hv.
  - destruct (passes_validation_true _ Hv) as (upload & Hd & _).
    rewrite (index_valid env request upload w Hv Hd). cbv zeta.
    destruct (parse_pdf env (stream upload)) as [pages|e].
    + destruct (word_count_of (combined_text_of pages) <? 18500);
        [destruct (generate_content env _ _) as [response|e];
         [destruct (text response) as [answer|e]|]|];
        cbn [snd]; (split; [eexists; split; [reflexivity|split; simpl; lia]|]);
        (split; [right; reflexivity|]);
        (split; [intros p Hp; cbn [fs after_run];
                 rewrite ?lookup_delete_ne by congruence;
                 apply lookup_insert_ne; congruence|]);
        (split; [intros k Hk _; cbn [session after_run];
                 rewrite ?lookup_insert_ne by congruence; reflexivity|]);
        intros token Htoken; cbn [session after_run];
        rewrite ?lookup_insert_ne by discriminate; exact Htoken.
    + cbn [snd]. split; [eexists; split; [reflexivity|split; simpl; lia]|].
      split; [right; reflexivity|].
      split; [intros p Hp; cbn [fs after_run]; apply lookup_insert_ne; congruence|].
      split; [intros k Hk _; reflexivity|]. intros token Htoken. exact Htoken.
  - rewrite (index_invalid env request w Hv). cbn [snd].
    destruct (generate_csrf_frame request w) as (Hfs & Hu & Ht & Hsess).
    rewrite Hfs, Hu, Ht, Hsess.
    split; [exists []; rewrite app_nil_r; split; [reflexivity|split; simpl; lia]|].
    split; [left; reflexivity|]. split; [intros; reflexivity|].
    split.
    + intros k _ Hk. destruct (is_submitted request); [reflexivity|].
      destruct (session w !! "csrf_token"); [reflexivity|].
      apply lookup_insert_ne. congruence.
    + intros token Htoken. destruct (is_submitted request); [exact Htoken|].
      rewrite Htoken. exact Htoken.
Qed.

(** ** Requests that run no upload *)

Lemma match_rule_cases (p : string) :
  match_rule p
    = if String.eqb "/" p
      then Some {| rule := "/"; methods := [GET; POST]; endpoint := "index" |}
      else if String.eqb "/pdf_results" p
           then Some {| rule := "/pdf_results"; methods := [GET; POST];
                        endpoint := "pdf_results" |}
           else None.
Proof.
  unfold match_rule, url_map. cbn [List.filter rule].
  destruct (String.eqb "/" p); [reflexivity|].
  destruct (String.eqb "/pdf_results" p); reflexivity.
Qed.

(** X3.  A GET or a HEAD of [/] renders the upload form unbound: no file,
    no error, the default instruction, whatever the request carries.  The
    one thing it may change is the session: when it holds no CSRF token a
    new one is stored.  The files, the uuid draws, the calls made and the
    other keys of the session are as they were. *)
Theorem get_index_renders_blank_form (request : Request) (w : World) :
  path request = "/" ->
  method request = GET \/ method request = HEAD ->
  fst (wsgi_app env request w)
    = Rendered "index.html"
        (ctx_upload_form
           {| pdf_file_data := None;
              pdf_file_errors := [];
              text_input_data := lit "Summarize the PDF." |})
  /\ fs (snd (wsgi_app env request w)) = fs w
  /\ uuids_drawn (snd (wsgi_app env request w)) = uuids_drawn w
  /\ trace (snd (wsgi_app env request w)) = trace w
  /\ session (snd (wsgi_app env request w))
     = match session w !! "csrf_token" with
       | Some _ => session w
       | None => <["csrf_token" := csrf_token_hex env (tokens_drawn w)]> (session w)
       end.
Proof.
  intros Hp Hm.
  assert (Hs : is_submitted request = false)
    by (unfold is_submitted; destruct Hm as [-> | ->]; reflexivity).
  assert (Hv : passes_validation request = false)
    by (unfold passes_validation, validate_on_submit; rewrite Hs; reflexivity).
  assert (Hview : full_dispatch_request env request w = index env request w).
  { unfold full_dispatch_request. rewrite match_rule_cases, Hp.
    cbn [String.eqb Ascii.eqb Bool.eqb].
    destruct Hm as [Hm|Hm]; rewrite Hm; reflexivity. }
  unfold wsgi_app. rewrite Hview, (index_invalid env request w Hv).
  cbn [fst snd].
  destruct (generate_csrf_frame request w) as (Hfs & Hu & Ht & Hsess).
  rewrite Hfs, Hu, Ht, Hsess, Hs.
  split; [|repeat split].
  unfold validate_on_submit, UploadForm_new. rewrite Hs. reflexivity.
Qed.

(** X4.  A request whose method carries a body and whose CSRF token is
    not valid runs no view: the world is as it was and the answer is a 400,
    a 404 or a 405; for a POST to either route it is the 400. *)
Theorem tokenless_submission_runs_no_view (request : Request) (w : World) :
  csrf_checked (method request) = true ->
  csrf_valid request = false ->
  snd (wsgi_app env request w) = w
  /\ (fst (wsgi_app env request w) = Aborted 400
      \/ fst (wsgi_app env request w) = Aborted 404
      \/ fst (wsgi_app env request w) = Aborted 405)
  /\ (method request = POST ->
      path request = "/" \/ path request = "/pdf_results" ->
      wsgi_app env request w = (Aborted 400, w)).
Proof.
  intros Hm Hc. unfold wsgi_app, full_dispatch_request.
  rewrite match_rule_cases, Hm, Hc.
  destruct (String.eqb_spec "/" (path request)) as [H1|H1];
    [|destruct (String.eqb_spec "/pdf_results" (path request)) as [H2|H2]].
  - destruct (method request); try discriminate; cbn; intuition congruence.
  - destruct (method request); try discriminate; cbn; intuition congruence.
  - cbn. split; [reflexivity|]. split; [auto|].
    intros _ [H|H]; congruence.
Qed.

(** X5.  On the two routes of the module only GET, HEAD and POST reach a
    view: OPTIONS gets the automatic response, PUT, PATCH and DELETE get
    the status 405, whatever token they carry, and the world is as it
    was. *)
Theorem only_get_head_post_reach_a_view (request : Request) (w : World) :
  path request = "/" \/ path request = "/pdf_results" ->
  method request <> GET ->
  method request <> HEAD ->
  method request <> POST ->
  snd (wsgi_app env request w) = w
  /\ (method request = OPTIONS -> fst (wsgi_app env request w) = DefaultOptions)
  /\ (method request <> OPTIONS -> fst (wsgi_app env request w) = Aborted 405).
Proof.
  intros Hp Hg Hh Hpost. unfold wsgi_app, full_dispatch_request.
  rewrite match_rule_cases.
  destruct Hp as [Hp|Hp]; rewrite Hp; cbn [String.eqb Ascii.eqb Bool.eqb];
    destruct (method request) eqn:Hm; try congruence; cbn;
    (split; [reflexivity|split; intros H; try reflexivity; congruence]).
Qed.

(** ** An upload and the requests after it *)

(** X6.  Upload, then follow the redirect.  After a validated upload for
    which the handler returns, a GET of the location of the redirect
    renders the conversion of the one text that went through the converter
    during the upload, on either branch. *)
Theorem upload_result_round_trip
    (request : Request) (w w' : World) (response : Response)
    (token : bool) (sent_files : list (string * FileStorage))
    (sent_form : list (string * pystr)) :
  passes_validation request = true ->
  index env request w = (Ok response, w') ->
  exists location response_text,
    response = Redirect 302 location
    /\ markdown_calls (events_since w w') = [response_text]
    /\ wsgi_app env
         {| method := GET; path := location; csrf_valid := token;
            files := sent_files; form := sent_form |} w'
       = (Rendered "pdf_results.html"
            (ctx_response_text (markdown_markdown env response_text)), w').
Proof.
  intros Hv Hrun.
  destruct (passes_validation_true _ Hv) as (upload & Hd & _).
  destruct (index_valid_returns env _ _ _ _ _ Hv Hd Hrun)
    as (pages & asked & response_text & Hp & -> & -> & Hbranch).
  exists "/pdf_results", response_text. split; [reflexivity|].
  rewrite events_since_after_run. split.
  - destruct Hbranch as [(_ & -> & _)|(_ & -> & _)]; reflexivity.
  - unfold wsgi_app.
    change (full_dispatch_request env _ ?v) with (pdf_results v).
    unfold pdf_results, bind, session_get, after_run. cbn [session].
    rewrite lookup_insert_eq. reflexivity.
Qed.

(** A failing validated upload stops with the file saved and the session
    as it was. *)
Lemma index_fails (request : Request) (upload : FileStorage) (w : World) (e : exn) :
  passes_validation request = true ->
  pdf_file_data (UploadForm_new request) = Some upload ->
  upload_fails env request upload e ->
  exists evs,
    index env request w
      = (Raise e,
         after_run w (<[uuid4_str env (uuids_drawn w) := stream upload]> (fs w))
           (session w) evs).
Proof.
  intros Hv Hd Hfail.
  rewrite (index_valid env request upload w Hv Hd). cbv zeta.
  destruct Hfail as [Hp|(pages & Hp & Hwc & Hg)]; rewrite Hp; [eauto|].
  apply Z.ltb_lt in Hwc. rewrite Hwc.
  destruct Hg as [Hg|(response & Hg & Ht)]; rewrite Hg; [|rewrite Ht]; eauto.
Qed.

(** X7.  After a validated POST to [/] on which extraction or inference
    raises, the client gets the status 500, and the results view answers
    exactly as it did before the upload: the result of an earlier upload
    if there was one. *)
Theorem failed_upload_keeps_stale_result
    (request : Request) (upload : FileStorage) (w : World) (e : exn)
    (token : bool) (sent_files : list (string * FileStorage))
    (sent_form : list (string * pystr)) :
  path request = "/" ->
  method request = POST ->
  csrf_valid request = true ->
  passes_validation request = true ->
  pdf_file_data (UploadForm_new request) = Some upload ->
  upload_fails env request upload e ->
  fst (wsgi_app env request w) = Aborted 500
  /\ fst (wsgi_app env
            {| method := GET; path := "/pdf_results"; csrf_valid := token;
               files := sent_files; form := sent_form |}
            (snd (wsgi_app env request w)))
     = fst (wsgi_app env
              {| method := GET; path := "/pdf_results"; csrf_valid := token;
                 files := sent_files; form := sent_form |} w).
Proof.
  intros Hpath Hm Hc Hv Hd Hfail.
  destruct (index_fails request upload w e Hv Hd Hfail) as (evs & Hrun).
  assert (Hpost : full_dispatch_request env request w = index env request w).
  { unfold full_dispatch_request. rewrite match_rule_cases, Hpath, Hm, Hc. reflexivity. }
  unfold wsgi_app at 1 3. rewrite Hpost, Hrun. cbn [fst snd].
  split; [reflexivity|].
  unfold wsgi_app.
  change (full_dispatch_request env _ ?v) with (pdf_results v).
  unfold pdf_results, bind, session_get, after_run. cbn [session].
  destruct (session w !! "markdown_response"); reflexivity.
Qed.

(** X8.  Two validated uploads in a row, both returning: the second draws
    the next uuid, its calls follow those of the first, both temporary
    files are gone, and the session holds the result of the second alone. *)
Theorem second_upload_replaces_result
    (first second : Request) (w w1 w2 : World) (response1 response2 : Response) :
  passes_validation first = true ->
  index env first w = (Ok response1, w1) ->
  passes_validation second = true ->
  index env second w1 = (Ok response2, w2) ->
  uuids_drawn w2 = S (S (uuids_drawn w))
  /\ events_since w w2 = events_since w w1 ++ events_since w1 w2
  /\ fs w2 = delete (uuid4_str env (S (uuids_drawn w)))
               (delete (uuid4_str env (uuids_drawn w)) (fs w))
  /\ exists response_text,
       markdown_calls (events_since w1 w2) = [response_text]
       /\ session w2
          = <["markdown_response" := markdown_markdown env response_text]> (session w).
Proof.
  intros Hv1 Hrun1 Hv2 Hrun2.
  destruct (passes_validation_true _ Hv1) as (upload1 & Hd1 & _).
  destruct (passes_validation_true _ Hv2) as (upload2 & Hd2 & _).
  destruct (index_valid_returns env _ _ _ _ _ Hv1 Hd1 Hrun1)
    as (pages1 & asked1 & text1 & _ & _ & -> & _).
  destruct (index_valid_returns env _ _ _ _ _ Hv2 Hd2 Hrun2)
    as (pages2 & asked2 & text2 & _ & _ & -> & Hbranch).
  rewrite !events_since_after_run.
  cbn [fs session uuids_drawn trace after_run].
  split; [reflexivity|]. split.
  { unfold events_since. cbn [trace after_run].
    rewrite <- app_assoc. apply drop_app_length. }
  split; [rewrite !delete_insert_eq; reflexivity|].
  exists text2. split.
  - destruct Hbranch as [(_ & -> & _)|(_ & -> & _)]; reflexivity.
  - apply insert_insert_eq.
Qed.

(** X9.  No cleanup sweep.  The file a failed upload left on disk is still
    there, with the uploaded bytes, after a later upload that returns,
    which removes its own file only; the two names differ when the two
    uuid draws do. *)
Theorem leaked_file_survives_later_upload
    (failing later : Request) (upload : FileStorage) (w w2 : World) (e : exn)
    (response : Response) :
  passes_validation failing = true ->
  pdf_file_data (UploadForm_new failing) = Some upload ->
  upload_fails env failing upload e ->
  passes_validation later = true ->
  index env later (snd (index env failing w)) = (Ok response, w2) ->
  uuid4_str env (uuids_drawn w) <> uuid4_str env (S (uuids_drawn w)) ->
  fs w2 !! uuid4_str env (uuids_drawn w) = Some (stream upload)
  /\ fs w2 !! uuid4_str env (S (uuids_drawn w)) = None.
Proof.
  intros Hv Hd Hfail Hv2 Hrun2 Hne.
  destruct (index_fails failing upload w e Hv Hd Hfail) as (evs & Hrun).
  rewrite Hrun in Hrun2. cbn [snd] in Hrun2.
  destruct (passes_validation_true _ Hv2) as (upload2 & Hd2 & _).
  destruct (index_valid_returns env _ _ _ _ _ Hv2 Hd2 Hrun2)
    as (pages2 & asked2 & text2 & _ & _ & -> & _).
  cbn [fs uuids_drawn after_run]. split.
  - rewrite lookup_delete_ne by congruence.
    rewrite lookup_insert_ne by congruence.
    apply lookup_insert_eq.
  - apply lookup_delete_eq.
Qed.


(** ** The extension test *)

Lemma lower_char_is (c target upper : N) :
  (0x61 <= target <= 0x7A)%N -> upper = (target - 0x20)%N ->
  (lower_char c =? target)%N = true <-> c = target \/ c = upper.
Proof.
  intros Ht ->. unfold lower_char. rewrite N.eqb_eq.
  destruct ((0x41 <=? c) && (c <=? 0x5A))%N eqn:Hc.
  - apply andb_true_iff in Hc as [H1 H2].
    apply N.leb_le in H1. apply N.leb_le in H2. lia.
  - apply andb_false_iff in Hc as [H|H]; apply N.leb_gt in H; lia.
Qed.

Lemma lower_char_dot (c : N) : (lower_char c =? 0x2E)%N = true <-> c = 0x2E%N.
Proof.
  unfold lower_char. rewrite N.eqb_eq.
  destruct ((0x41 <=? c) && (c <=? 0x5A))%N eqn:Hc.
  - apply andb_true_iff in Hc as [H1 H2].
    apply N.leb_le in H1. apply N.leb_le in H2. lia.
  - tauto.
Qed.

Lemma startswith_nil (s : pystr) : startswith s [] = true.
Proof. destruct s; reflexivity. Qed.

Lemma endswith_lower_pdf (name : pystr) :
  endswith (lower name) (lit ".pdf") = true <->
  exists stem a b c,
    name = stem ++ [0x2E%N; a; b; c]
    /\ (a = 0x70 \/ a = 0x50)%N /\ (b = 0x64 \/ b = 0x44)%N /\ (c = 0x66 \/ c = 0x46)%N.
Proof.
  unfold endswith, lower. rewrite <- map_rev.
  pose proof (rev_involutive name) as Hn.
  remember (rev name) as l eqn:Hl. clear Hl. subst name.
  change (rev (lit ".pdf")) with [0x66%N; 0x64%N; 0x70%N; 0x2E%N].
  split.
  - destruct l as [|c [|b [|a [|d rest]]]]; cbn [map startswith];
      rewrite ?andb_false_r; try discriminate.
    rewrite startswith_nil, andb_true_r, !andb_true_iff.
    intros (Hc & Hb & Ha & Hd).
    apply (proj1 (lower_char_is c 0x66 0x46 ltac:(lia) eq_refl)) in Hc.
    apply (proj1 (lower_char_is b 0x64 0x44 ltac:(lia) eq_refl)) in Hb.
    apply (proj1 (lower_char_is a 0x70 0x50 ltac:(lia) eq_refl)) in Ha.
    apply lower_char_dot in Hd. subst d.
    exists (rev rest), a, b, c. split; [|auto].
    cbn [rev]. rewrite <- !app_assoc. reflexivity.
  - intros (stem & a & b & c & Hname & Ha & Hb & Hc).
    apply (f_equal (@rev N)) in Hname. rewrite rev_involutive in Hname.
    rewrite rev_app_distr in Hname. cbn [rev app] in Hname. subst l.
    cbn [map startswith]. rewrite startswith_nil, andb_true_r, !andb_true_iff.
    split; [apply (proj2 (lower_char_is c 0x66 0x46 ltac:(lia) eq_refl)); auto|].
    split; [apply (proj2 (lower_char_is b 0x64 0x44 ltac:(lia) eq_refl)); auto|].
    apply (proj2 (lower_char_is a 0x70 0x50 ltac:(lia) eq_refl)); auto.
Qed.

(** X10.  Validation reads the name of the first file sent as [pdf_file]
    and nothing else: the submission passes exactly when that name is some
    stem followed by a dot and the letters p, d, f in either case.  The
    bytes of the file, the other files and the instruction play no part. *)
Theorem validation_reads_only_the_file_name
    (request : Request) (f : FileStorage) (others : list (string * FileStorage)) :
  is_submitted request = true ->
  files request = ("pdf_file", f) :: others ->
  filename f <> [] ->
  passes_validation request = true <->
  exists stem a b c,
    filename f = stem ++ [0x2E%N; a; b; c]
    /\ (a = 0x70 \/ a = 0x50)%N /\ (b = 0x64 \/ b = 0x44)%N /\ (c = 0x66 \/ c = 0x46)%N.
Proof.
  intros Hs Hfiles Hname.
  assert (Ht : file_truthy f = true)
    by (unfold file_truthy; destruct (filename f); congruence).
  rewrite <- endswith_lower_pdf.
  unfold passes_validation, validate_on_submit, validate. rewrite Hs. cbn [fst].
  rewrite run_chain_pdf_file.
  unfold UploadForm_new. rewrite Hs. cbn [pdf_file_data].
  unfold FileField_process, getlist. rewrite Hfiles.
  cbn [List.filter fst snd map String.eqb Ascii.eqb Bool.eqb]. rewrite Ht.
  cbn [head]. rewrite Ht.
  destruct (endswith _ _); split; congruence.
Qed.

(** ** The word count at its edges *)

Lemma split_ws_all_space (s : pystr) :
  Forall (fun c => isspace c = true) s -> split_ws [] s = [].
Proof.
  induction 1 as [|c s Hc _ IH]; [reflexivity|].
  cbn [split_ws]. rewrite Hc. exact IH.
Qed.

Lemma join_all_space (parts : list pystr) :
  Forall (Forall (fun c => isspace c = true)) parts ->
  Forall (fun c => isspace c = true) (join (nl ++ nl) parts).
Proof.
  induction 1 as [|p parts Hp Hparts IH]; [constructor|].
  destruct parts as [|q parts]; [exact Hp|].
  change (join (nl ++ nl) (p :: q :: parts))
    with (p ++ (nl ++ nl) ++ join (nl ++ nl) (q :: parts)).
  apply Forall_app; split; [exact Hp|].
  apply Forall_app; split; [|exact IH].
  repeat constructor.
Qed.

(** X12.  A PDF whose pages hold nothing but whitespace, or that has no
    page, counts zero words, so the gate lets it through: the hosted model
    is called once, with the instruction and the blank text. *)
Theorem blank_pdf_is_still_sent_to_the_model
    (request : Request) (upload : FileStorage) (pages : list Document) (w : World) :
  passes_validation request = true ->
  pdf_file_data (UploadForm_new request) = Some upload ->
  parse_pdf env (stream upload) = Ok pages ->
  Forall (fun p => Forall (fun c => isspace c = true) (page_content p)) pages ->
  word_count_of (combined_text_of pages) = 0
  /\ generate_calls (events_since w (snd (index env request w)))
     = [(prompt_of (instruction_of request) (combined_text_of pages), generation_config)].
Proof.
  intros Hv Hd Hp Hblank.
  assert (Hwc : word_count_of (combined_text_of pages) = 0).
  { unfold word_count_of, combined_text_of, len, split.
    rewrite split_ws_all_space; [reflexivity|].
    apply join_all_space. apply Forall_map. exact Hblank. }
  split; [exact Hwc|].
  rewrite (index_valid env request upload w Hv Hd), Hp. cbv zeta.
  rewrite Hwc. cbn [Z.ltb Z.compare].
  destruct (generate_content env _ _) as [response|e];
    [destruct (text response) as [answer|e]|];
    cbn [snd]; rewrite events_since_after_run; reflexivity.
Qed.

Lemma split_ws_no_space (word s : pystr) :
  Forall (fun c => isspace c = false) s ->
  split_ws word s = match rev s ++ word with [] => [] | _ => [rev (rev s ++ word)] end.
Proof.
  revert word. induction s as [|c rest IH]; intros word Hs; simpl.
  - reflexivity.
  - inversion Hs as [|? ? Hc Hrest]; subst. rewrite Hc, (IH _ Hrest).
    rewrite <- app_assoc. reflexivity.
Qed.

(** X13.  The gate counts words, not characters: a text without
    whitespace is one word, however long. *)
Theorem unbroken_text_is_one_word (combined_text : pystr) :
  combined_text <> [] ->
  Forall (fun c => isspace c = false) combined_text ->
  split combined_text = [combined_text]
  /\ word_count_of combined_text = 1.
Proof.
  intros Hne Hs. unfold word_count_of, len, split.
  rewrite (split_ws_no_space [] combined_text Hs), app_nil_r.
  destruct (rev combined_text) eqn:Hr.
  - apply (f_equal (@rev N)) in Hr. rewrite rev_involutive in Hr. contradiction.
  - rewrite <- Hr, rev_involutive. split; reflexivity.
Qed.

(** ** The repair of the bullet *)

Lemma startswith_replace_from (p s : pystr) :
  Forall (fun x => x <> 32%N) p ->
  startswith (replace_from bullet_glyph (lit "  *") 0 s) p = true ->
  startswith s p = true.
Proof.
  intros Hp. revert s. induction Hp as [|x p Hx Hp IH]; intros s.
  - intros _. apply startswith_nil.
  - destruct s as [|d s']; [discriminate|].
    cbn [replace_from].
    destruct (startswith (d :: s') bullet_glyph).
    + cbn [lit map list_ascii_of_string app startswith].
      change (N_of_ascii " ") with 32%N.
      destruct (N.eqb_spec 32 x) as [Heq|_]; [congruence|discriminate].
    + cbn [startswith]. rewrite !andb_true_iff. intros [Hd Hrest].
      split; [exact Hd|]. apply IH. exact Hrest.
Qed.

Lemma replace_from_no_bullet (skip : nat) (s : pystr) :
  occurs bullet_glyph (replace_from bullet_glyph (lit "  *") skip s) = false.
Proof.
  revert skip. induction s as [|c rest IH]; intros skip; [reflexivity|].
  cbn [replace_from]. destruct skip as [|k]; [|apply IH].
  destruct (startswith (c :: rest) bullet_glyph) eqn:Hstart.
  - change (lit "  *") with [32%N; 32%N; 42%N].
    cbn [app occurs]. rewrite IH. reflexivity.
  - cbn [occurs]. rewrite IH, orb_false_r.
    destruct (startswith (c :: replace_from _ _ 0 rest) bullet_glyph) eqn:Hout;
      [|reflexivity].
    rewrite <- Hstart. cbn [startswith bullet_glyph] in *.
    apply andb_true_iff in Hout as [Hc Hrest].
    rewrite Hc. cbn [andb]. symmetry.
    apply (startswith_replace_from [0x20AC%N; 0xA2%N] rest);
      [repeat constructor; discriminate|exact Hrest].
Qed.

Lemma replace_from_without (old new s : pystr) :
  occurs old s = false -> replace_from old new 0 s = s.
Proof.
  induction s as [|c rest IH]; [reflexivity|].
  cbn [occurs replace_from]. intros H. apply orb_false_iff in H as [Hhere Hrest].
  rewrite Hhere, (IH Hrest). reflexivity.
Qed.

(** X14.  The repair leaves no mis-decoded bullet in the text, leaves a
    text without one as it is, and so changes nothing when applied
    twice. *)
Theorem bullet_repair_is_complete (answer : pystr) :
  occurs bullet_glyph (replace answer bullet_glyph (lit "  *")) = false
  /\ (occurs bullet_glyph answer = false ->
      replace answer bullet_glyph (lit "  *") = answer)
  /\ replace (replace answer bullet_glyph (lit "  *")) bullet_glyph (lit "  *")
     = replace answer bullet_glyph (lit "  *").
Proof.
  change (replace ?s bullet_glyph (lit "  *"))
    with (replace_from bullet_glyph (lit "  *") 0 s).
  split; [apply replace_from_no_bullet|].
  split; [apply replace_from_without|].
  apply replace_from_without, replace_from_no_bullet.
Qed.

(** ** Two more edges of [index] *)

(** X15.  A submission whose [pdf_file] parts all have an empty file name,
    as a browser sends when no file was chosen, counts as one without a
    file: the form comes back with the required-field error and the world
    is as it was. *)
Theorem unnamed_files_count_as_missing (request : Request) (w : World) :
  is_submitted request = true ->
  Forall (fun f => filename f = []) (getlist "pdf_file" (files request)) ->
  index env request w
    = (Ok (Rendered "index.html"
             (ctx_upload_form
                {| pdf_file_data := None;
                   pdf_file_errors := [lit "This field is required."];
                   text_input_data := instruction_of request |})), w).
Proof.
  intros Hs Hnames.
  assert (Hnone : FileField_process "pdf_file" request = None).
  { unfold FileField_process.
    induction Hnames as [|f l Hf _ IH]; [reflexivity|].
    cbn [List.filter]. unfold file_truthy at 1. rewrite Hf. exact IH. }
  assert (Hval : validate_on_submit request (UploadForm_new request)
                 = (false,
                    {| pdf_file_data := None;
                       pdf_file_errors := [lit "This field is required."];
                       text_input_data := instruction_of request |})).
  { unfold validate_on_submit, validate, instruction_of. rewrite Hs.
    rewrite run_chain_pdf_file. unfold UploadForm_new. rewrite Hs.
    cbn [pdf_file_data text_input_data]. rewrite Hnone. reflexivity. }
  rewrite index_invalid;
    [rewrite (generate_csrf_submitted env request w Hs), Hval; reflexivity|].
  unfold passes_validation. rewrite Hval. reflexivity.
Qed.

(** X16.  On the inference branch the whole prompt, the text of the PDF
    included, is written to the debug log right before it is sent to the
    hosted model, whether the call then returns or raises. *)
Theorem prompt_is_logged_before_inference
    (request : Request) (upload : FileStorage) (pages : list Document) (w : World) :
  passes_validation request = true ->
  pdf_file_data (UploadForm_new request) = Some upload ->
  parse_pdf env (stream upload) = Ok pages ->
  word_count_of (combined_text_of pages) < 18500 ->
  exists after,
    events_since w (snd (index env request w))
      = extraction_events (uuid4_str env (uuids_drawn w)) upload pages
        ++ [EvLog (prompt_of (instruction_of request) (combined_text_of pages));
            EvGenerate (prompt_of (instruction_of request) (combined_text_of pages))
              generation_config]
        ++ after.
Proof.
  intros Hv Hd Hp Hwc.
  rewrite (index_valid env request upload w Hv Hd), Hp. cbv zeta.
  apply Z.ltb_lt in Hwc. rewrite Hwc.
  destruct (generate_content env _ _) as [response|e];
    [destruct (text response) as [answer|e]|];
    cbn [snd]; rewrite events_since_after_run.
  - eexists. rewrite <- app_assoc. reflexivity.
  - exists []. reflexivity.
  - exists []. reflexivity.
Qed.

End Coverage.

(** ** The further properties at concrete requests *)

(** Witness of X3: a first GET of [/] on a session without a token, and a
    second one. *)
Lemma get_index_after_upload :
  fst (wsgi_app demo get_index_request demo_stored)
    = Rendered "index.html"
        (ctx_upload_form
           {| pdf_file_data := None;
              pdf_file_errors := [];
              text_input_data := lit "Summarize the PDF." |})
  /\ session (snd (wsgi_app demo get_index_request demo_stored))
     = <["csrf_token" := lit "token-0"]> (session demo_stored)
  /\ session (snd (wsgi_app demo get_index_request
                     (snd (wsgi_app demo get_index_request demo_stored))))
     = session (snd (wsgi_app demo get_index_request demo_stored)).
Proof.
  destruct (get_index_renders_blank_form demo get_index_request demo_stored)
    as (Hform & _ & _ & _ & Hfirst); [reflexivity|left; reflexivity|].
  destruct (get_index_renders_blank_form demo get_index_request
              (snd (wsgi_app demo get_index_request demo_stored)))
    as (_ & _ & _ & _ & Hsecond); [reflexivity|left; reflexivity|].
  split; [exact Hform|]. split; [exact Hfirst|]. exact Hsecond.
Defined.

(** Witness of X4: a POST of a PDF without a token. *)
Lemma tokenless_upload_is_refused :
  wsgi_app demo tokenless_upload demo_world = (Aborted 400, demo_world).
Proof.
  destruct (tokenless_submission_runs_no_view demo tokenless_upload demo_world)
    as (_ & _ & Hpost).
  - reflexivity.
  - reflexivity.
  - apply Hpost; [reflexivity|left; reflexivity].
Defined.

(** Witness of X5: a DELETE of the results view. *)
Lemma delete_of_results_runs_nothing :
  snd (wsgi_app demo delete_request demo_stored) = demo_stored
  /\ fst (wsgi_app demo delete_request demo_stored) = Aborted 405.
Proof.
  destruct (only_get_head_post_reach_a_view demo delete_request demo_stored)
    as (Hworld & _ & Hrefused);
    [right; reflexivity|discriminate|discriminate|discriminate|].
  split; [exact Hworld|]. apply Hrefused. discriminate.
Defined.

(** Witness of X6: the three-page upload, then the results view. *)
Lemma three_page_upload_then_results :
  exists location response_text,
    Redirect 302 "/pdf_results" = Redirect 302 location
    /\ markdown_calls
         (events_since demo_world (snd (index demo three_page_upload demo_world)))
       = [response_text]
    /\ wsgi_app demo
         {| method := GET; path := location; csrf_valid := false;
            files := []; form := [] |}
         (snd (index demo three_page_upload demo_world))
       = (Rendered "pdf_results.html"
            (ctx_response_text (demo_markdown response_text)),
          snd (index demo three_page_upload demo_world)).
Proof.
  apply (upload_result_round_trip demo three_page_upload demo_world
           (snd (index demo three_page_upload demo_world))
           (Redirect 302 "/pdf_results") false [] []).
  - reflexivity.
  - vm_compute. reflexivity.
Defined.

(** Witness of X7: the refused upload after an earlier result. *)
Lemma quota_failure_shows_earlier_result :
  fst (wsgi_app demo quota_upload demo_stored) = Aborted 500
  /\ fst (wsgi_app demo (results_request GET false)
            (snd (wsgi_app demo quota_upload demo_stored)))
     = fst (wsgi_app demo (results_request GET false) demo_stored).
Proof.
  apply (failed_upload_keeps_stale_result demo quota_upload
           {| filename := lit "paper.pdf"; stream := list_byte_of_string "alpha beta" |}
           demo_stored (InferenceError (lit "quota")) false [] []).
  - reflexivity.
  - reflexivity.
  - reflexivity.
  - reflexivity.
  - reflexivity.
  - right. exists [ {| page_content := lit "alpha beta" |} ].
    split; [reflexivity|]. split; [vm_compute; reflexivity|].
    left. reflexivity.
Defined.

(** Witness of X8: the three-page upload, then a second upload. *)
Lemma two_uploads_in_a_row :
  uuids_drawn
    (snd (index demo second_upload (snd (index demo three_page_upload demo_world))))
    = 2%nat
  /\ fs (snd (index demo second_upload (snd (index demo three_page_upload demo_world))))
     = delete "upload-1" (delete "upload-0" (fs demo_world)).
Proof.
  destruct (second_upload_replaces_result demo three_page_upload second_upload
              demo_world
              (snd (index demo three_page_upload demo_world))
              (snd (index demo second_upload
                      (snd (index demo three_page_upload demo_world))))
              (Redirect 302 "/pdf_results") (Redirect 302 "/pdf_results"))
    as (Hdrawn & _ & Hfs & _).
  - reflexivity.
  - vm_compute. reflexivity.
  - reflexivity.
  - vm_compute. reflexivity.
  - split; [exact Hdrawn|exact Hfs].
Defined.

(** Witness of X9: the refused upload, then the three-page upload. *)
Lemma refused_upload_stays_on_disk :
  fs (snd (index demo three_page_upload (snd (index demo quota_upload demo_world))))
    !! "upload-0" = Some (list_byte_of_string "alpha beta")
  /\ fs (snd (index demo three_page_upload (snd (index demo quota_upload demo_world))))
       !! "upload-1" = None.
Proof.
  apply (leaked_file_survives_later_upload demo quota_upload three_page_upload
           {| filename := lit "paper.pdf"; stream := list_byte_of_string "alpha beta" |}
           demo_world
           (snd (index demo three_page_upload (snd (index demo quota_upload demo_world))))
           (InferenceError (lit "quota")) (Redirect 302 "/pdf_results")).
  - reflexivity.
  - reflexivity.
  - right. exists [ {| page_content := lit "alpha beta" |} ].
    split; [reflexivity|]. split; [vm_compute; reflexivity|].
    left. reflexivity.
  - reflexivity.
  - vm_compute. reflexivity.
  - vm_compute. discriminate.
Defined.

(** Witness of X10: an upper-case extension on bytes that are no PDF, sent
    with a second file and an empty instruction. *)
Lemma shouting_upload_passes :
  passes_validation shouting_upload = true.
Proof.
  apply (proj2 (validation_reads_only_the_file_name shouting_upload
                  {| filename := lit "REPORT.PDF";
                     stream := list_byte_of_string "not a pdf" |}
                  [("pdf_file", {| filename := lit "other.txt"; stream := [] |})]
                  eq_refl eq_refl ltac:(discriminate))).
  exists (lit "REPORT"), 0x50%N, 0x44%N, 0x46%N.
  split; [reflexivity|]. repeat split; right; reflexivity.
Defined.

(** Witness of X12: two pages of spaces. *)
Lemma blank_upload_is_asked :
  word_count_of
    (combined_text_of [ {| page_content := lit " " |}; {| page_content := lit "  " |} ])
    = 0
  /\ generate_calls (events_since demo_world (snd (index demo blank_upload demo_world)))
     = [(lit "Summarize the PDF. Use information from the PDF to respond."
         ++ nl ++ nl ++ lit "PDF:" ++ nl ++ lit " " ++ nl ++ nl ++ lit "  ",
         generation_config)].
Proof.
  apply (blank_pdf_is_still_sent_to_the_model demo blank_upload
           {| filename := lit "blank.pdf";
              stream := list_byte_of_string " " ++ [x0c] ++ list_byte_of_string "  " |}
           [ {| page_content := lit " " |}; {| page_content := lit "  " |} ]
           demo_world).
  - reflexivity.
  - reflexivity.
  - reflexivity.
  - repeat constructor.
Defined.

(** Witness of X13: one long word. *)
Lemma one_long_word :
  split (lit "antidisestablishmentarianism") = [lit "antidisestablishmentarianism"]
  /\ word_count_of (lit "antidisestablishmentarianism") = 1.
Proof.
  apply (unbroken_text_is_one_word (lit "antidisestablishmentarianism")).
  - discriminate.
  - repeat constructor.
Defined.

(** Witness of X15: a submission whose only file part has no name. *)
Lemma unnamed_upload_is_missing :
  index demo unnamed_upload demo_world
    = (Ok (Rendered "index.html"
             (ctx_upload_form
                {| pdf_file_data := None;
                   pdf_file_errors := [lit "This field is required."];
                   text_input_data := lit "Summarize the PDF." |})), demo_world).
Proof.
  apply (unnamed_files_count_as_missing demo unnamed_upload demo_world).
  - reflexivity.
  - repeat constructor.
Defined.

(** Witness of X16: the refused upload, whose prompt was logged. *)
Lemma refused_prompt_was_logged :
  exists after,
    events_since demo_world (snd (index demo quota_upload demo_world))
      = extraction_events "upload-0"
          {| filename := lit "paper.pdf"; stream := list_byte_of_string "alpha beta" |}
          [ {| page_content := lit "alpha beta" |} ]
        ++ [EvLog (prompt_of (lit "!") (lit "alpha beta"));
            EvGenerate (prompt_of (lit "!") (lit "alpha beta")) generation_config]
        ++ after.
Proof.
  apply (prompt_is_logged_before_inference demo quota_upload
           {| filename := lit "paper.pdf"; stream := list_byte_of_string "alpha beta" |}
           [ {| page_content := lit "alpha beta" |} ] demo_world).
  - reflexivity.
  - reflexivity.
  - reflexivity.
  - vm_compute. reflexivity.
Defined.
